(** * go-paypal: a shallow embedding of [paypal.go] and its specification

    The Go package is a thin client for PayPal's name-value-pair (NVP) API.
    This development embeds its data model and operations as Rocq
    definitions and proves the properties stated by the specification.

    Conventions.
    - A Go [string] is a byte sequence: Rocq's [string] (a list of 8-bit
      [ascii] characters).
    - A Go [float64] is a primitive binary64 float ([PrimFloat.float]);
      arithmetic is IEEE 754 round-to-nearest-even, operation by operation.
    - A Go [int] is modelled by [Z]; the loop index of a slice by [nat].
    - [url.Values] (a [map[string][]string]) is a [gmap string (list string)].
    - Functions of Go's standard library that the package calls are either
      modelled from their documented behaviour ([fmt.Sprintf], [url.QueryEscape],
      [Values.Encode]) or taken as parameters of a section
      ([strings.ToLower], [url.ParseQuery], [strconv.ParseFloat], the HTTP
      transport). *)

From Stdlib Require Import ZArith Floats Ascii String.
From stdpp Require Import gmap strings pretty sorting list.

Local Open Scope string_scope.
Local Open Scope Z_scope.

(** ** Constants of the package *)

Definition NVP_SANDBOX_URL : string := "https://api-3t.sandbox.paypal.com/nvp".
Definition NVP_PRODUCTION_URL : string := "https://api-3t.paypal.com/nvp".
Definition CHECKOUT_SANDBOX_URL : string := "https://www.sandbox.paypal.com/cgi-bin/webscr".
Definition CHECKOUT_PRODUCTION_URL : string := "https://www.paypal.com/cgi-bin/webscr".
Definition NVP_VERSION : string := "94".

(** ** [net/url]: form values and query encoding *)

Module url.

Abbreviation Values := (gmap string (list string)).

(** [Values.Get]: the first value associated with the key, or the empty
    string when there is none. *)
Definition Get (v : Values) (key : string) : string :=
  match v !! key with
  | Some (x :: _) => x
  | _ => ""
  end.

(** [Values.Set]: replaces any existing values of the key. *)
Definition Set_ (v : Values) (key value : string) : Values :=
  <[key := [value]]> v.

(** [Values.Add]: appends to the values of the key. *)
Definition Add (v : Values) (key value : string) : Values :=
  <[key := (default [] (v !! key) ++ [value])%list]> v.

Definition in_range (lo hi c : ascii) : bool :=
  (N.leb (N_of_ascii lo) (N_of_ascii c) && N.leb (N_of_ascii c) (N_of_ascii hi))%bool.

(** [shouldEscape(c, encodeQueryComponent)]: everything but the
    unreserved characters of RFC 3986 is escaped. *)
Definition shouldEscape (c : ascii) : bool :=
  if (in_range "a" "z" c || in_range "A" "Z" c || in_range "0" "9" c)%bool then false
  else if (Ascii.eqb c "-" || Ascii.eqb c "_" || Ascii.eqb c "." || Ascii.eqb c "~")%bool
  then false
  else true.

Definition upperhex (n : N) : ascii :=
  match n with
  | 0 => "0" | 1 => "1" | 2 => "2" | 3 => "3" | 4 => "4" | 5 => "5"
  | 6 => "6" | 7 => "7" | 8 => "8" | 9 => "9" | 10 => "A" | 11 => "B"
  | 12 => "C" | 13 => "D" | 14 => "E" | _ => "F"
  end%char%N.

(** [url.QueryEscape]: a space becomes [+], any other escaped byte
    becomes [%XX] with upper-case hexadecimal digits. *)
Fixpoint QueryEscape (s : string) : string :=
  match s with
  | EmptyString => EmptyString
  | String c rest =>
      if shouldEscape c then
        if Ascii.eqb c " " then String "+" (QueryEscape rest)
        else String "%" (String (upperhex (N.shiftr (N_of_ascii c) 4))
                        (String (upperhex (N.land (N_of_ascii c) 15))
                                (QueryEscape rest)))
      else String c (QueryEscape rest)
  end.

(** One key of [Values.Encode]: its values in order, each written as
    [key=value], with an ampersand before every pair but the first of
    the buffer. *)
Fixpoint encode_key (keyEscaped : string) (vs : list string) (buf : string) : string :=
  match vs with
  | [] => buf
  | v :: vs' =>
      let buf := if Nat.ltb 0 (String.length buf) then buf +:+ "&" else buf in
      encode_key keyEscaped vs' (buf +:+ keyEscaped +:+ "=" +:+ QueryEscape v)
  end.

(** [Values.Encode]: the keys are visited in sorted (bytewise) order. *)
Definition Encode (v : Values) : string :=
  fold_left
    (fun buf k => encode_key (QueryEscape k) (default [] (v !! k)) buf)
    (merge_sort String.le (fst <$> map_to_list v))
    "".

End url.

Import url.

(** ** [fmt]: the two verbs the package uses *)

(** [fmt.Sprintf("%d", n)]: the decimal digits of [n], with a minus sign
    when negative. *)
Definition Sprintf_d (n : Z) : string := pretty n.

(** The nearest integer to [m * 2^e * 100], a tie going to the even
    neighbour: the exact value scaled to hundredths, as
    [strconv.FormatFloat] rounds the exact decimal expansion. *)
Definition hundredths (m : positive) (e : Z) : Z :=
  if 0 <=? e then Z.pos m * 100 * 2 ^ e
  else
    let d := 2 ^ (- e) in
    let q := (Z.pos m * 100) / d in
    let r := (Z.pos m * 100) mod d in
    if 2 * r <? d then q
    else if d <? 2 * r then q + 1
    else if Z.even q then q else q + 1.

Definition digit (n : Z) : ascii := pretty_N_char (Z.to_N n).

(** The [%f] layout with precision 2: sign, integer part, point, two
    fraction digits. *)
Definition fmtF2 (neg : bool) (h : Z) : string :=
  (if neg then "-" else "") +:+ pretty (h / 100)
    +:+ String "." (String (digit ((h / 10) mod 10)) (String (digit (h mod 10)) "")).

(** [fmt.Sprintf("%.2f", x)] for a [float64]. *)
Definition Sprintf_2f (x : float) : string :=
  match Prim2SF x with
  | S754_nan => "NaN"
  | S754_infinity false => "+Inf"
  | S754_infinity true => "-Inf"
  | S754_zero s => fmtF2 s 0
  | S754_finite s m e => fmtF2 s (hundredths m e)
  end.

(** [float64(n)] for an [int]: the nearest binary64 value. *)
Definition float64_of_int (n : Z) : float :=
  SF2Prim (binary_normalize 53 1024 n 0 false).

(** ** Data model *)

Module PayPalOrder.
Record t := mk {
  SubTotal : float;
  Shipping : float;
  Discount : float;
  Total : float;
  CurrencyCode : string;
  ReturnUrl : string;
  CancelUrl : string
}.
End PayPalOrder.

Module PayPalDigitalGood.
Record t := mk {
  Name : string;
  Amount : float;
  Quantity : Z
}.
End PayPalDigitalGood.

Module PayPalGood.
Record t := mk {
  Id : string;
  Name : string;
  Amount : float;
  Quantity : Z
}.
End PayPalGood.

Module PayPalError.
Record t := mk {
  Ack : string;
  ErrorCode : string;
  ShortMessage : string;
  LongMessage : string;
  SeverityCode : string
}.

(** The zero value that [new(PayPalError)] allocates. *)
Definition zero : t := mk "" "" "" "" "".

(** The literal ["PayPal is undergoing maintenance.\nPlease try again later."]:
    the two sentences are separated by a line feed (byte 10). *)
Definition maintenance : string :=
  "PayPal is undergoing maintenance." +:+ String "010" "Please try again later.".

(** [func (e *PayPalError) Error() string] *)
Definition Error (e : t) : string :=
  if (negb (Nat.eqb (String.length (ErrorCode e)) 0)
      && negb (Nat.eqb (String.length (ShortMessage e)) 0))%bool
  then "PayPal Error " +:+ ErrorCode e +:+ ": " +:+ ShortMessage e
  else if negb (Nat.eqb (String.length (Ack e)) 0)
  then Ack e
  else maintenance.
End PayPalError.

Module PayPalResponse.
Record t := mk {
  Ack : string;
  CorrelationId : string;
  Timestamp : string;
  Version : string;
  Build : string;
  Token : string;
  Values : url.Values;
  usedSandbox : bool
}.

(** [func (r *PayPalResponse) CheckoutUrl() string] *)
Definition CheckoutUrl (r : t) : string :=
  let query : url.Values := ∅ in
  let query := Set_ query "cmd" "_express-checkout" in
  let query := Add query "token" (Token r) in
  let checkoutUrl := if usedSandbox r then CHECKOUT_SANDBOX_URL else CHECKOUT_PRODUCTION_URL in
  checkoutUrl +:+ "?" +:+ Encode query.
End PayPalResponse.

(** [strconv.ParseFloat] reports one of two errors: the text is not a
    number ([ErrSyntax]) or the number is out of range ([ErrRange]). *)
Inductive NumError := ErrSyntax | ErrRange.

Module PayPalPaymentResponse.
Record t := mk {
  TransactionId : string;
  Status : string;
  Type_ : string;
  Fee : float;
  Amount : float;
  Currency : string;
  ReasonCode : string
}.

(** [func (response *PayPalPaymentResponse) Populate(values url.Values)].
    The receiver is updated field by field; the error that
    [strconv.ParseFloat] returns is discarded. The third field is [Type]
    in the source. *)
Definition Populate (ParseFloat : string -> float * option NumError)
    (response : t) (values : url.Values) : t :=
  let response := mk (Get values "PAYMENTINFO_0_TRANSACTIONID") (Status response)
                     (Type_ response) (Fee response) (Amount response)
                     (Currency response) (ReasonCode response) in
  let response := mk (TransactionId response) (Get values "PAYMENTINFO_0_PAYMENTSTATUS")
                     (Type_ response) (Fee response) (Amount response)
                     (Currency response) (ReasonCode response) in
  let paymentAmt := Get values "PAYMENTINFO_0_AMT" in
  let response := mk (TransactionId response) (Status response)
                     (Type_ response) (Fee response) (fst (ParseFloat paymentAmt))
                     (Currency response) (ReasonCode response) in
  let feeAmt := Get values "PAYMENTINFO_0_FEEAMT" in
  let response := mk (TransactionId response) (Status response)
                     (Type_ response) (fst (ParseFloat feeAmt)) (Amount response)
                     (Currency response) (ReasonCode response) in
  let response := mk (TransactionId response) (Status response)
                     (Type_ response) (Fee response) (Amount response)
                     (Get values "PAYMENTINFO_0_CURRENCYCODE") (ReasonCode response) in
  let response := mk (TransactionId response) (Status response)
                     (Get values "PAYMENTINFO_0_PAYMENTTYPE") (Fee response) (Amount response)
                     (Currency response) (ReasonCode response) in
  mk (TransactionId response) (Status response)
     (Type_ response) (Fee response) (Amount response)
     (Currency response) (Get values "PAYMENTINFO_0_REASONCODE").
End PayPalPaymentResponse.

(** [func SumPayPalDigitalGoodAmounts(goods *[]PayPalDigitalGood) (sum float64)]:
    the named result starts at zero and the loop adds one product per
    element, in slice order. The argument is the slice behind a non-nil
    pointer. The product and the sum are rounded one after the other, as
    the compiler does where it does not fuse them into one operation. *)
Definition SumPayPalDigitalGoodAmounts (goods : list PayPalDigitalGood.t) : float :=
  fold_left
    (fun sum dg =>
       (sum + PayPalDigitalGood.Amount dg * float64_of_int (PayPalDigitalGood.Quantity dg))%float)
    goods 0%float.

(** ** Request builders

    Each builder of the source fills a fresh [url.Values] and hands it to
    [PerformRequest]. The filling is a pure function, given here under the
    builder's name with the suffix [_values]; the builder itself is defined
    with the client below. *)

(** [fmt.Sprintf("%s%d", field, i)] *)
Definition indexed (field : string) (i : nat) : string :=
  field +:+ Sprintf_d (Z.of_nat i).

(** The loop [for i := 0; i < len(goods); i++] of
    [SetExpressCheckoutDigitalGoods], over the elements from index [i] on. *)
Fixpoint digital_goods_loop (i : nat) (goods : list PayPalDigitalGood.t)
    (values : url.Values) : url.Values :=
  match goods with
  | [] => values
  | good :: rest =>
      let values := Add values (indexed "L_PAYMENTREQUEST_0_NAME" i) (PayPalDigitalGood.Name good) in
      let values := Add values (indexed "L_PAYMENTREQUEST_0_AMT" i)
                        (Sprintf_2f (PayPalDigitalGood.Amount good)) in
      let values := Add values (indexed "L_PAYMENTREQUEST_0_QTY" i)
                        (Sprintf_d (PayPalDigitalGood.Quantity good)) in
      let values := Add values (indexed "L_PAYMENTREQUEST_0_ITEMCATEGORY" i) "Digital" in
      digital_goods_loop (S i) rest values
  end.

Definition SetExpressCheckoutDigitalGoods_values (paymentAmount : float)
    (currencyCode returnURL cancelURL : string) (goods : list PayPalDigitalGood.t)
    : url.Values :=
  let values : url.Values := ∅ in
  let values := Set_ values "METHOD" "SetExpressCheckout" in
  let values := Add values "PAYMENTREQUEST_0_AMT" (Sprintf_2f paymentAmount) in
  let values := Add values "PAYMENTREQUEST_0_PAYMENTACTION" "Sale" in
  let values := Add values "PAYMENTREQUEST_0_CURRENCYCODE" currencyCode in
  let values := Add values "RETURNURL" returnURL in
  let values := Add values "CANCELURL" cancelURL in
  let values := Add values "REQCONFIRMSHIPPING" "0" in
  let values := Add values "NOSHIPPING" "1" in
  let values := Add values "SOLUTIONTYPE" "Sole" in
  digital_goods_loop 0 goods values.

(** The loop of [SetExpressCheckout], over the elements from index [i] on. *)
Fixpoint goods_loop (i : nat) (goods : list PayPalGood.t)
    (values : url.Values) : url.Values :=
  match goods with
  | [] => values
  | good :: rest =>
      let values :=
        if negb (String.eqb (PayPalGood.Id good) "")
        then Add values (indexed "L_PAYMENTREQUEST_0_NUMBER" i) (PayPalGood.Id good)
        else values in
      let values := Add values (indexed "L_PAYMENTREQUEST_0_NAME" i) (PayPalGood.Name good) in
      let values := Add values (indexed "L_PAYMENTREQUEST_0_AMT" i)
                        (Sprintf_2f (PayPalGood.Amount good)) in
      let values := Add values (indexed "L_PAYMENTREQUEST_0_QTY" i)
                        (Sprintf_d (PayPalGood.Quantity good)) in
      goods_loop (S i) rest values
  end.

Definition SetExpressCheckout_values (order : PayPalOrder.t) (goods : list PayPalGood.t)
    : url.Values :=
  let values : url.Values := ∅ in
  let values := Set_ values "METHOD" "SetExpressCheckout" in
  let values := Add values "PAYMENTREQUEST_0_ITEMAMT" (Sprintf_2f (PayPalOrder.SubTotal order)) in
  let values := Add values "PAYMENTREQUEST_0_SHIPPINGAMT" (Sprintf_2f (PayPalOrder.Shipping order)) in
  let values := Add values "PAYMENTREQUEST_0_AMT" (Sprintf_2f (PayPalOrder.Total order)) in
  let values := Add values "PAYMENTREQUEST_0_PAYMENTACTION" "Sale" in
  let values := Add values "PAYMENTREQUEST_0_CURRENCYCODE" (PayPalOrder.CurrencyCode order) in
  let values := Add values "RETURNURL" (PayPalOrder.ReturnUrl order) in
  let values := Add values "CANCELURL" (PayPalOrder.CancelUrl order) in
  let values := Add values "REQCONFIRMSHIPPING" "0" in
  let values := Add values "NOSHIPPING" "1" in
  let values := Add values "SOLUTIONTYPE" "Sole" in
  let goodsCount := length goods in
  let values := goods_loop 0 goods values in
  if (0 <? PayPalOrder.Discount order)%float then
    let values := Add values (indexed "L_PAYMENTREQUEST_0_NAME" goodsCount) "DISCOUNT" in
    let values := Add values (indexed "L_PAYMENTREQUEST_0_AMT" goodsCount)
                      (Sprintf_2f (- PayPalOrder.Discount order)%float) in
    Add values (indexed "L_PAYMENTREQUEST_0_QTY" goodsCount) "1"
  else values.

Definition DoExpressCheckoutPayment_values
    (token payerId paymentType currencyCode : string) (finalPaymentAmount : float)
    : url.Values :=
  let values : url.Values := ∅ in
  let values := Set_ values "METHOD" "DoExpressCheckoutPayment" in
  let values := Add values "TOKEN" token in
  let values := Add values "PAYERID" payerId in
  let values := Add values "PAYMENTREQUEST_0_PAYMENTACTION" paymentType in
  let values := Add values "PAYMENTREQUEST_0_CURRENCYCODE" currencyCode in
  Add values "PAYMENTREQUEST_0_AMT" (Sprintf_2f finalPaymentAmount).

Definition GetExpressCheckoutDetails_values (token : string) : url.Values :=
  let values : url.Values := ∅ in
  let values := Add values "TOKEN" token in
  Set_ values "METHOD" "GetExpressCheckoutDetails".

(** ** Errors and results *)

(** The values of Go's [error] interface that reach this package: an
    opaque error of the transport or of the parser, a malformed
    percent-escape reported by [net/url], or the package's own
    [*PayPalError]. *)
Inductive error :=
| errorString (msg : string)
| EscapeError (s : string)
| PayPalErr (e : PayPalError.t).

(** Reading a field through a pointer: a nil pointer makes the program
    panic. A pointer is an [option]; [None] is [nil]. *)
Inductive outcome (A : Type) :=
| Returns (a : A)
| Panics.
Arguments Returns {A} a.
Arguments Panics {A}.

Definition deref {A B : Type} (p : option A) (field : A -> B) : outcome B :=
  match p with
  | Some a => Returns (field a)
  | None => Panics
  end.

(** ** The gateway client

    The network is an explicit state [World]; every operation of the
    transport is a function from the world to a result and a new world.
    [strings.ToLower] and [url.ParseQuery] are parameters. *)

Section Gateway.

Variable World : Type.
Variable ToLower : string -> string.
Variable ParseQuery : string -> url.Values * option error.

(** [io.ReadCloser], read through [ioutil.ReadAll] and closed by [Close]. *)
Record ReadCloser := {
  ReadAll : World -> (string + error) * World;
  Close : World -> World
}.

Record http_Response := { Body : ReadCloser }.

Record http_Client := {
  PostForm : string -> url.Values -> World -> (http_Response + error) * World
}.

Record PayPalClient := {
  username : string;
  password : string;
  signature : string;
  usesSandbox : bool;
  client : http_Client
}.

Definition NewClient (username password signature : string) (usesSandbox : bool)
    (client : http_Client) : PayPalClient :=
  Build_PayPalClient username password signature usesSandbox client.

(** [NewDefaultClient] allocates [new(http.Client)], the zero client of
    [net/http]; it is the first argument here. *)
Definition NewDefaultClient (zeroClient : http_Client)
    (username password signature : string) (usesSandbox : bool) : PayPalClient :=
  Build_PayPalClient username password signature usesSandbox zeroClient.

(** The result of a call: the response pointer, the error, and the world
    the call leaves behind. *)
Definition result : Type := (option PayPalResponse.t * option error) * World.

(** [func (pClient *PayPalClient) PerformRequest(values url.Values)], returning
    a [*PayPalResponse] and an [error]. The four credentials are added to
    the map the caller passed (the builders below pass a map of their
    own). The deferred [Body.Close] runs on every return that follows it. *)
Definition PerformRequest (pClient : PayPalClient) (values : url.Values) (w : World)
    : result :=
  let values := Add values "USER" (username pClient) in
  let values := Add values "PWD" (password pClient) in
  let values := Add values "SIGNATURE" (signature pClient) in
  let values := Add values "VERSION" NVP_VERSION in
  let endpoint := if usesSandbox pClient then NVP_SANDBOX_URL else NVP_PRODUCTION_URL in
  match PostForm (client pClient) endpoint values w with
  | (inr err, w) => ((None, Some err), w)
  | (inl formResponse, w) =>
      match ReadAll (Body formResponse) w with
      | (inr err, w) => ((None, Some err), Close (Body formResponse) w)
      | (inl body, w) =>
          let '(responseValues, err) := ParseQuery body in
          let response :=
            PayPalResponse.mk "" "" "" "" "" "" ∅ (usesSandbox pClient) in
          match err with
          | None =>
              let response :=
                PayPalResponse.mk
                  (Get responseValues "ACK")
                  (Get responseValues "CORRELATIONID")
                  (Get responseValues "TIMESTAMP")
                  (Get responseValues "VERSION")
                  (Get responseValues "BUILD")
                  (Get responseValues "TOKEN")
                  responseValues
                  (PayPalResponse.usedSandbox response) in
              let errorCode := Get responseValues "L_ERRORCODE0" in
              if (negb (Nat.eqb (String.length errorCode) 0)
                  || String.eqb (ToLower (PayPalResponse.Ack response)) "failure"
                  || String.eqb (ToLower (PayPalResponse.Ack response)) "failurewithwarning")%bool
              then
                let pError :=
                  PayPalError.mk
                    (PayPalResponse.Ack response)
                    errorCode
                    (Get responseValues "L_SHORTMESSAGE0")
                    (Get responseValues "L_LONGMESSAGE0")
                    (Get responseValues "L_SEVERITYCODE0") in
                ((Some response, Some (PayPalErr pError)), Close (Body formResponse) w)
              else ((Some response, None), Close (Body formResponse) w)
          | Some err => ((Some response, Some err), Close (Body formResponse) w)
          end
      end
  end.

Definition SetExpressCheckoutDigitalGoods (pClient : PayPalClient) (paymentAmount : float)
    (currencyCode returnURL cancelURL : string) (goods : list PayPalDigitalGood.t)
    : World -> result :=
  PerformRequest pClient
    (SetExpressCheckoutDigitalGoods_values paymentAmount currencyCode returnURL cancelURL goods).

Definition SetExpressCheckout (pClient : PayPalClient) (order : PayPalOrder.t)
    (goods : list PayPalGood.t) : World -> result :=
  PerformRequest pClient (SetExpressCheckout_values order goods).

(** [paymentType] can be "Sale" or "Authorization" or "Order". *)
Definition DoExpressCheckoutPayment (pClient : PayPalClient)
    (token payerId paymentType currencyCode : string) (finalPaymentAmount : float)
    : World -> result :=
  PerformRequest pClient
    (DoExpressCheckoutPayment_values token payerId paymentType currencyCode finalPaymentAmount).

(** Convenience function for Sale (Charge). *)
Definition DoExpressCheckoutSale (pClient : PayPalClient)
    (token payerId currencyCode : string) (finalPaymentAmount : float)
    : World -> result :=
  DoExpressCheckoutPayment pClient token payerId "Sale" currencyCode finalPaymentAmount.

Definition GetExpressCheckoutDetails (pClient : PayPalClient) (token : string)
    : World -> result :=
  PerformRequest pClient (GetExpressCheckoutDetails_values token).

End Gateway.

Arguments ReadAll {World} _ _.
Arguments Close {World} _ _.
Arguments Body {World} _.
Arguments PostForm {World} _ _ _ _.
Arguments username {World} _.
Arguments password {World} _.
Arguments signature {World} _.
Arguments usesSandbox {World} _.
Arguments client {World} _.
Arguments PerformRequest {World} ToLower ParseQuery pClient values w.
Arguments SetExpressCheckoutDigitalGoods {World} ToLower ParseQuery pClient
  paymentAmount currencyCode returnURL cancelURL goods _.
Arguments SetExpressCheckout {World} ToLower ParseQuery pClient order goods _.
Arguments DoExpressCheckoutPayment {World} ToLower ParseQuery pClient
  token payerId paymentType currencyCode finalPaymentAmount _.
Arguments DoExpressCheckoutSale {World} ToLower ParseQuery pClient
  token payerId currencyCode finalPaymentAmount _.
Arguments GetExpressCheckoutDetails {World} ToLower ParseQuery pClient token _.

(** ** Reference instances of the library parameters

    Executable instances, used to run the client on concrete inputs. *)

Definition isASCII (s : string) : bool :=
  forallb (fun c => N.ltb (N_of_ascii c) 128) (list_ascii_of_string s).

(** [strings.ToLower] on a string of ASCII bytes: the letters [A]-[Z] move
    to [a]-[z], every other byte stays. *)
Definition lower_byte (c : ascii) : ascii :=
  if in_range "A" "Z" c then ascii_of_N (N_of_ascii c + 32) else c.

Fixpoint ToLower_ascii (s : string) : string :=
  match s with
  | EmptyString => EmptyString
  | String c rest => String (lower_byte c) (ToLower_ascii rest)
  end.

Definition ishex (c : ascii) : bool :=
  (in_range "0" "9" c || in_range "a" "f" c || in_range "A" "F" c)%bool.

Definition unhex (c : ascii) : N :=
  if in_range "0" "9" c then N_of_ascii c - 48
  else if in_range "a" "f" c then N_of_ascii c - 97 + 10
  else if in_range "A" "F" c then N_of_ascii c - 65 + 10
  else 0.

(** [url.QueryUnescape]: [%XX] becomes the byte, [+] a space; a percent
    sign that is not followed by two hexadecimal digits is an error. *)
Fixpoint QueryUnescape (s : string) : string + error :=
  match s with
  | EmptyString => inl EmptyString
  | String c rest =>
      if Ascii.eqb c "%" then
        match rest with
        | String a (String b rest') =>
            if (ishex a && ishex b)%bool then
              match QueryUnescape rest' with
              | inl r => inl (String (ascii_of_N (N.lor (N.shiftl (unhex a) 4) (unhex b))) r)
              | inr e => inr e
              end
            else inr (EscapeError (String c (String a (String b EmptyString))))
        | _ => inr (EscapeError (String c rest))
        end
      else
        match QueryUnescape rest with
        | inl r => inl (String (if Ascii.eqb c "+" then " "%char else c) r)
        | inr e => inr e
        end
  end.

(** [strings.Cut(s, sep)] for a one-byte separator. *)
Fixpoint cut (sep : ascii) (s : string) : string * string * bool :=
  match s with
  | EmptyString => (EmptyString, EmptyString, false)
  | String c rest =>
      if Ascii.eqb c sep then (EmptyString, rest, true)
      else let '(before, after, found) := cut sep rest in (String c before, after, found)
  end.

(** The pieces of the query between ampersands. *)
Fixpoint pieces (s : string) : list string :=
  match s with
  | EmptyString => []
  | String c rest =>
      if Ascii.eqb c "&" then EmptyString :: pieces rest
      else match pieces rest with
           | [] => [String c EmptyString]
           | p :: ps => String c p :: ps
           end
  end.

Definition contains (c : ascii) (s : string) : bool :=
  existsb (Ascii.eqb c) (list_ascii_of_string s).

(** One round of the loop of [url.parseQuery] (Go 1.17 and later). *)
Definition parseQuery_step (st : url.Values * option error) (key : string)
    : url.Values * option error :=
  let '(m, err) := st in
  if contains ";" key then (m, Some (errorString "invalid semicolon separator in query"))
  else if String.eqb key "" then (m, err)
  else
    let '(key, value, _) := cut "=" key in
    match QueryUnescape key with
    | inr err1 => (m, if err is None then Some err1 else err)
    | inl key =>
        match QueryUnescape value with
        | inr err1 => (m, if err is None then Some err1 else err)
        | inl value => (Add m key value, err)
        end
    end.

Definition ParseQuery_ref (query : string) : url.Values * option error :=
  fold_left parseQuery_step (pieces query) (∅, None).

(** [strconv.ParseFloat] restricted to unsigned decimal integers: a
    non-empty string of digits is the nearest [float64] of the integer it
    denotes (infinite, with [ErrRange], when too large); any other text
    is reported as [ErrSyntax] with value zero. *)
Fixpoint digits_value (acc : Z) (s : string) : option Z :=
  match s with
  | EmptyString => Some acc
  | String c rest =>
      if in_range "0" "9" c
      then digits_value (10 * acc + Z.of_N (N_of_ascii c - 48)) rest
      else None
  end.

Definition ParseFloat_digits (s : string) : float * option NumError :=
  match s with
  | EmptyString => (0%float, Some ErrSyntax)
  | _ =>
      match digits_value 0 s with
      | None => (0%float, Some ErrSyntax)
      | Some n =>
          let f := float64_of_int n in
          if PrimFloat.eqb f infinity then (f, Some ErrRange) else (f, None)
      end
  end.

(** A transport for examples: the world is the log of the requests
    posted; every request is answered with the same body. *)
Definition Log : Type := list (string * url.Values).

Definition canned_body (body : string) : ReadCloser Log :=
  {| ReadAll := fun w => (inl body, w); Close := fun w => w |}.

Definition canned_client (body : string) : http_Client Log :=
  {| PostForm := fun endpoint values w =>
       (inl {| Body := canned_body body |}, (w ++ [(endpoint, values)])%list) |}.

(** A transport whose connection fails. *)
Definition refusing_client : http_Client Log :=
  {| PostForm := fun endpoint values w =>
       (inr (errorString "connection refused"), w) |}.

(** A transport whose body cannot be read to its end. *)
Definition truncating_client : http_Client Log :=
  {| PostForm := fun endpoint values w =>
       (inl {| Body := {| ReadAll := fun w => (inr (errorString "unexpected EOF"), w);
                          Close := fun w => w |} |},
        (w ++ [(endpoint, values)])%list) |}.

(** ** Predicates of the specification *)

(** The remote side declared a failure: the first error-code field is
    non-empty, or the lower-cased acknowledgement is one of the two
    failure words. *)
Definition remote_failure (ToLower : string -> string) (responseValues : url.Values) : Prop :=
  Get responseValues "L_ERRORCODE0" ≠ ""
  ∨ ToLower (Get responseValues "ACK") = "failure"
  ∨ ToLower (Get responseValues "ACK") = "failurewithwarning".

(** The transport failed on the request that [PerformRequest] posts for
    [values]: either the POST itself returned the error, or the body of
    the response could not be read. The last index is the world after the
    failure (and after the deferred [Close], when a response was open). *)
Inductive transport_failure {World : Type} (pClient : PayPalClient World)
    (values : url.Values) (w : World) : error -> World -> Prop :=
| post_failed err w1 :
    PostForm (client pClient)
      (if usesSandbox pClient then NVP_SANDBOX_URL else NVP_PRODUCTION_URL)
      (Add (Add (Add (Add values "USER" (username pClient)) "PWD" (password pClient))
                "SIGNATURE" (signature pClient)) "VERSION" NVP_VERSION)
      w = (inr err, w1) ->
    transport_failure pClient values w err w1
| read_failed formResponse w1 err w2 :
    PostForm (client pClient)
      (if usesSandbox pClient then NVP_SANDBOX_URL else NVP_PRODUCTION_URL)
      (Add (Add (Add (Add values "USER" (username pClient)) "PWD" (password pClient))
                "SIGNATURE" (signature pClient)) "VERSION" NVP_VERSION)
      w = (inl formResponse, w1) ->
    ReadAll (Body formResponse) w1 = (inr err, w2) ->
    transport_failure pClient values w err (Close (Body formResponse) w2).

(** The sum of the specification: the products amount times quantity,
    added up from zero in list order. *)
Definition float_sum (l : list float) : float :=
  fold_left PrimFloat.add l 0%float.

Definition sum_of_products (goods : list PayPalDigitalGood.t) : float :=
  float_sum
    (map (fun dg => (PayPalDigitalGood.Amount dg
                     * float64_of_int (PayPalDigitalGood.Quantity dg))%float) goods).

(** The indexed fields of a line item. *)
Definition item_fields : list string :=
  ["L_PAYMENTREQUEST_0_NUMBER"; "L_PAYMENTREQUEST_0_NAME"; "L_PAYMENTREQUEST_0_AMT";
   "L_PAYMENTREQUEST_0_QTY"; "L_PAYMENTREQUEST_0_ITEMCATEGORY"].

(** The parameters that [SetExpressCheckout] and
    [SetExpressCheckoutDigitalGoods] set once per request. *)
Definition fixed_fields : list string :=
  ["METHOD"; "PAYMENTREQUEST_0_ITEMAMT"; "PAYMENTREQUEST_0_SHIPPINGAMT";
   "PAYMENTREQUEST_0_AMT"; "PAYMENTREQUEST_0_PAYMENTACTION";
   "PAYMENTREQUEST_0_CURRENCYCODE"; "RETURNURL"; "CANCELURL";
   "REQCONFIRMSHIPPING"; "NOSHIPPING"; "SOLUTIONTYPE"].

(** No indexed field of a line item is present from index [i] on. *)
Definition fresh_from (i : nat) (values : url.Values) : Prop :=
  ∀ f j, f ∈ item_fields -> (i <= j)%nat -> values !! indexed f j = None.

(** The characters that [QueryEscape] leaves alone: letters, digits and
    the four marks [-], [_], [.], [~]. *)
Definition unreserved (s : string) : bool :=
  forallb (fun c => negb (shouldEscape c)) (list_ascii_of_string s).

(** What the loop of [SetExpressCheckout] writes into an indexed field
    for one physical item. *)
Definition good_field (field : string) (good : PayPalGood.t) : option (list string) :=
  if decide (field = "L_PAYMENTREQUEST_0_NUMBER") then
    if String.eqb (PayPalGood.Id good) "" then None else Some [PayPalGood.Id good]
  else if decide (field = "L_PAYMENTREQUEST_0_NAME") then Some [PayPalGood.Name good]
  else if decide (field = "L_PAYMENTREQUEST_0_AMT")
  then Some [Sprintf_2f (PayPalGood.Amount good)]
  else if decide (field = "L_PAYMENTREQUEST_0_QTY")
  then Some [Sprintf_d (PayPalGood.Quantity good)]
  else None.

(** The same for one digital item. *)
Definition digital_good_field (field : string) (good : PayPalDigitalGood.t)
    : option (list string) :=
  if decide (field = "L_PAYMENTREQUEST_0_NAME") then Some [PayPalDigitalGood.Name good]
  else if decide (field = "L_PAYMENTREQUEST_0_AMT")
  then Some [Sprintf_2f (PayPalDigitalGood.Amount good)]
  else if decide (field = "L_PAYMENTREQUEST_0_QTY")
  then Some [Sprintf_d (PayPalDigitalGood.Quantity good)]
  else if decide (field = "L_PAYMENTREQUEST_0_ITEMCATEGORY") then Some ["Digital"]
  else None.

(** What [SetExpressCheckout] writes into an indexed field for the
    discount item. *)
Definition discount_field (field : string) (order : PayPalOrder.t) : option (list string) :=
  if decide (field = "L_PAYMENTREQUEST_0_NAME") then Some ["DISCOUNT"]
  else if decide (field = "L_PAYMENTREQUEST_0_AMT")
  then Some [Sprintf_2f (- PayPalOrder.Discount order)%float]
  else if decide (field = "L_PAYMENTREQUEST_0_QTY") then Some ["1"]
  else None.

(** A finite [float64]: neither NaN nor an infinity. *)
Definition is_finite (x : float) : bool :=
  match Prim2SF x with
  | S754_zero _ | S754_finite _ _ _ => true
  | S754_infinity _ | S754_nan => false
  end.

Definition is_digit (c : ascii) : bool := in_range "0" "9" c.

Fixpoint all_digits (s : string) : bool :=
  match s with
  | EmptyString => true
  | String c rest => (is_digit c && all_digits rest)%bool
  end.

(** The text is an optional minus sign, at least one digit, a point and
    exactly two digits. *)
Definition two_decimals (s : string) : bool :=
  let unsigned :=
    match s with
    | String c rest => if Ascii.eqb c "-" then rest else s
    | EmptyString => s
    end in
  let '(int, frac, found) := cut "." unsigned in
  (found && negb (String.eqb int "") && all_digits int
   && Nat.eqb (String.length frac) 2 && all_digits frac)%bool.

(** [h] is the integer nearest to [m * 2^e * 100], the even one of the
    two when the value lies halfway. *)
Definition nearest_hundredth (m : positive) (e h : Z) : Prop :=
  if 0 <=? e then h = Z.pos m * 100 * 2 ^ e
  else
    Z.abs (2 * (h * 2 ^ (- e) - Z.pos m * 100)) <= 2 ^ (- e)
    ∧ (Z.abs (2 * (h * 2 ^ (- e) - Z.pos m * 100)) = 2 ^ (- e) -> Z.even h = true).

(** A transport that records every request it is given and answers from
    a script: the text of the response body, or the error of a failed
    connection. *)
Definition scripted_client (respond : string -> url.Values -> string + error)
    : http_Client Log :=
  {| PostForm := fun endpoint values w =>
       (match respond endpoint values with
        | inl body => inl {| Body := canned_body body |}
        | inr err => inr err
        end,
        (w ++ [(endpoint, values)])%list) |}.

(** The keys of a request that begin with [L_PAYMENTREQUEST_0_NAME]. *)
Definition name_fields (values : url.Values) : gset string :=
  filter (fun key => String.prefix "L_PAYMENTREQUEST_0_NAME" key = true) (dom values).

(** A string field copied from a key: the first value of the key, or the
    empty string when the key is absent or has no value. *)
Definition copied (values : url.Values) (key field : string) : Prop :=
  match values !! key with
  | Some (x :: _) => field = x
  | _ => field = ""
  end.

(** [PerformRequest] called with a form that may be the nil map ([None]).
    [Values.Add] assigns into the map, and an assignment into a nil map
    panics: the call ends there, before anything is posted. *)
Definition PerformRequest_on {World : Type} (ToLower : string -> string)
    (ParseQuery : string -> url.Values * option error)
    (pClient : PayPalClient World) (values : option url.Values) (w : World)
    : outcome (result World) :=
  match values with
  | None => Panics
  | Some values => Returns (PerformRequest ToLower ParseQuery pClient values w)
  end.

(** * Properties *)

(** ** Strings *)

Lemma length_zero_iff (s : string) : Nat.eqb (String.length s) 0 = true <-> s = "".
Proof.
  destruct s; simpl; split; intros H; try reflexivity; discriminate.
Qed.

Lemma nonempty_true (s : string) : negb (Nat.eqb (String.length s) 0) = true <-> s ≠ "".
Proof.
  rewrite negb_true_iff, <- not_true_iff_false, length_zero_iff. reflexivity.
Qed.

Lemma nonempty_false (s : string) : negb (Nat.eqb (String.length s) 0) = false <-> s = "".
Proof.
  rewrite negb_false_iff. apply length_zero_iff.
Qed.

(** Turns the boolean emptiness tests of the context into equations. *)
Ltac nonempty_hyps :=
  repeat match goal with
         | H : negb (Nat.eqb (String.length _) 0) = true |- _ => apply nonempty_true in H
         | H : negb (Nat.eqb (String.length _) 0) = false |- _ => apply nonempty_false in H
         end.

(** ** [PayPalError.Error] *)

Lemma Error_cases (e : PayPalError.t) :
  (PayPalError.ErrorCode e ≠ "" ∧ PayPalError.ShortMessage e ≠ ""
   ∧ PayPalError.Error e
     = "PayPal Error " +:+ PayPalError.ErrorCode e +:+ ": " +:+ PayPalError.ShortMessage e)
  ∨ (¬ (PayPalError.ErrorCode e ≠ "" ∧ PayPalError.ShortMessage e ≠ "")
     ∧ PayPalError.Ack e ≠ "" ∧ PayPalError.Error e = PayPalError.Ack e)
  ∨ (¬ (PayPalError.ErrorCode e ≠ "" ∧ PayPalError.ShortMessage e ≠ "")
     ∧ PayPalError.Ack e = "" ∧ PayPalError.Error e = PayPalError.maintenance).
Proof.
  unfold PayPalError.Error.
  destruct (negb (Nat.eqb (String.length (PayPalError.ErrorCode e)) 0)) eqn:Hc;
    destruct (negb (Nat.eqb (String.length (PayPalError.ShortMessage e)) 0)) eqn:Hs;
    destruct (negb (Nat.eqb (String.length (PayPalError.Ack e)) 0)) eqn:Ha;
    simpl;
    nonempty_hyps;
    first [ left; split; [assumption | split; [assumption | reflexivity]]
          | right; left; split;
            [intros [? ?]; congruence | split; [assumption | reflexivity]]
          | right; right; split;
            [intros [? ?]; congruence | split; [assumption | reflexivity]] ].
Qed.

Lemma Error_prefix_not_maintenance (code short : string) :
  "PayPal Error " +:+ code +:+ ": " +:+ short ≠ PayPalError.maintenance.
Proof.
  unfold PayPalError.maintenance. simpl. intros H. discriminate H.
Qed.

(** C8 (as the code has it). [Error] is a three-way choice. When the
    error code and the short message are both non-empty the message is
    "PayPal Error <code>: <short message>"; otherwise, when the ack is
    non-empty, the message is the ack itself; and when neither is
    populated it is the maintenance text. A result equal to the
    maintenance text leaves the code-and-message pair unpopulated, and
    the ack either empty or itself that very text. *)
Theorem Error_message (e : PayPalError.t) :
  (PayPalError.ErrorCode e ≠ "" ∧ PayPalError.ShortMessage e ≠ "" →
     PayPalError.Error e
     = "PayPal Error " +:+ PayPalError.ErrorCode e +:+ ": " +:+ PayPalError.ShortMessage e)
  ∧ (¬ (PayPalError.ErrorCode e ≠ "" ∧ PayPalError.ShortMessage e ≠ "") →
     PayPalError.Ack e ≠ "" →
     PayPalError.Error e = PayPalError.Ack e)
  ∧ (¬ (PayPalError.ErrorCode e ≠ "" ∧ PayPalError.ShortMessage e ≠ "") →
     PayPalError.Ack e = "" →
     PayPalError.Error e = PayPalError.maintenance)
  ∧ (PayPalError.Error e = PayPalError.maintenance →
     ¬ (PayPalError.ErrorCode e ≠ "" ∧ PayPalError.ShortMessage e ≠ "")
     ∧ (PayPalError.Ack e = "" ∨ PayPalError.Ack e = PayPalError.maintenance)).
Proof.
  destruct (Error_cases e) as [(Hc & Hs & ->) | [(Hn & Ha & ->) | (Hn & Ha & ->)]].
  - split; [reflexivity |].
    split; [intros Hn; exfalso; apply Hn; split; assumption |].
    split; [intros Hn; exfalso; apply Hn; split; assumption |].
    intros Hm. exfalso. exact (Error_prefix_not_maintenance _ _ Hm).
  - split; [intros Hcs; exfalso; exact (Hn Hcs) |].
    split; [reflexivity |].
    split; [intros _ He; exfalso; exact (Ha He) |].
    intros Hm. split; [exact Hn | right; exact Hm].
  - split; [intros Hcs; exfalso; exact (Hn Hcs) |].
    split; [intros _ He; exfalso; exact (He Ha) |].
    split; [reflexivity |].
    intros _. split; [exact Hn | left; exact Ha].
Qed.

(** C8 as stated fails in one direction: an error whose ack is the
    maintenance text is populated, and [Error] returns that text. *)
Lemma Error_ack_maintenance :
  PayPalError.Error (PayPalError.mk PayPalError.maintenance "" "" "" "")
  = PayPalError.maintenance
  ∧ PayPalError.Ack (PayPalError.mk PayPalError.maintenance "" "" "" "") ≠ "".
Proof.
  split; [reflexivity |].
  cbn. unfold PayPalError.maintenance. simpl. intros H. discriminate H.
Qed.

(** The three branches on concrete errors. *)
Example Error_with_code :
  PayPalError.Error (PayPalError.mk "Failure" "10001" "Internal Error" "" "")
  = "PayPal Error 10001: Internal Error".
Proof. reflexivity. Qed.

Example Error_with_ack :
  PayPalError.Error (PayPalError.mk "Failure" "10001" "" "long" "Error") = "Failure".
Proof. reflexivity. Qed.

Example Error_unpopulated :
  PayPalError.Error PayPalError.zero = PayPalError.maintenance.
Proof. reflexivity. Qed.

(** ** [SumPayPalDigitalGoodAmounts] *)

Lemma fold_left_products (goods : list PayPalDigitalGood.t) (acc : float) :
  fold_left
    (fun sum dg =>
       (sum + PayPalDigitalGood.Amount dg * float64_of_int (PayPalDigitalGood.Quantity dg))%float)
    goods acc
  = fold_left PrimFloat.add
      (map (fun dg => (PayPalDigitalGood.Amount dg
                       * float64_of_int (PayPalDigitalGood.Quantity dg))%float) goods)
      acc.
Proof.
  revert acc. induction goods as [| dg goods IH]; intros acc; simpl.
  - reflexivity.
  - apply IH.
Qed.

Lemma Sum_snoc (goods : list PayPalDigitalGood.t) (dg : PayPalDigitalGood.t) :
  SumPayPalDigitalGoodAmounts (goods ++ [dg])
  = (SumPayPalDigitalGoodAmounts goods
     + PayPalDigitalGood.Amount dg * float64_of_int (PayPalDigitalGood.Quantity dg))%float.
Proof.
  unfold SumPayPalDigitalGoodAmounts. rewrite fold_left_app. reflexivity.
Qed.

(** C4. [SumPayPalDigitalGoodAmounts] returns the sum over the list of
    amount times quantity (in [float64] arithmetic, the products added
    from zero in list order): each further element adds its product to
    the sum of the elements before it. It returns 0 for the empty list
    and 25 for the list of (amount 10, quantity 2) and (amount 5,
    quantity 1). *)
Theorem SumPayPalDigitalGoodAmounts_sum :
  (∀ goods, SumPayPalDigitalGoodAmounts goods = sum_of_products goods)
  ∧ (∀ goods dg,
       SumPayPalDigitalGoodAmounts (goods ++ [dg])
       = (SumPayPalDigitalGoodAmounts goods
          + PayPalDigitalGood.Amount dg
            * float64_of_int (PayPalDigitalGood.Quantity dg))%float)
  ∧ SumPayPalDigitalGoodAmounts [] = 0%float
  ∧ (∀ name1 name2,
       SumPayPalDigitalGoodAmounts
         [PayPalDigitalGood.mk name1 10 2; PayPalDigitalGood.mk name2 5 1] = 25%float).
Proof.
  split; [| split; [| split]].
  - intros goods. unfold SumPayPalDigitalGoodAmounts, sum_of_products, float_sum.
    apply fold_left_products.
  - apply Sum_snoc.
  - reflexivity.
  - intros name1 name2. vm_compute. reflexivity.
Qed.

(** ** Reading a request back *)

Lemma Add_lookup_eq (v : url.Values) (key value : string) :
  Add v key value !! key = Some (default [] (v !! key) ++ [value])%list.
Proof.
  unfold Add. apply lookup_insert_eq.
Qed.

Lemma Add_lookup_ne (v : url.Values) (key key' value : string) :
  key ≠ key' -> Add v key value !! key' = v !! key'.
Proof.
  intros H. unfold Add. apply lookup_insert_ne. exact H.
Qed.

(** ** [PerformRequest] *)

Section GatewayProperties.

Context {World : Type}.
Variable ToLower : string -> string.
Variable ParseQuery : string -> url.Values * option error.

Lemma remote_failure_true (responseValues : url.Values) :
  (negb (Nat.eqb (String.length (Get responseValues "L_ERRORCODE0")) 0)
   || String.eqb (ToLower (Get responseValues "ACK")) "failure"
   || String.eqb (ToLower (Get responseValues "ACK")) "failurewithwarning")%bool = true
  <-> remote_failure ToLower responseValues.
Proof.
  unfold remote_failure.
  rewrite !orb_true_iff, nonempty_true, !String.eqb_eq. tauto.
Qed.

(** What [PerformRequest] returns once the body has been read and parsed
    without error. *)
Lemma PerformRequest_parsed (pClient : PayPalClient World) (values : url.Values)
    (w w1 w2 : World) (formResponse : http_Response World) (body : string)
    (responseValues : url.Values) :
  PostForm (client pClient)
    (if usesSandbox pClient then NVP_SANDBOX_URL else NVP_PRODUCTION_URL)
    (Add (Add (Add (Add values "USER" (username pClient)) "PWD" (password pClient))
              "SIGNATURE" (signature pClient)) "VERSION" NVP_VERSION)
    w = (inl formResponse, w1) ->
  ReadAll (Body formResponse) w1 = (inl body, w2) ->
  ParseQuery body = (responseValues, None) ->
  PerformRequest ToLower ParseQuery pClient values w
  = ((Some (PayPalResponse.mk
              (Get responseValues "ACK") (Get responseValues "CORRELATIONID")
              (Get responseValues "TIMESTAMP") (Get responseValues "VERSION")
              (Get responseValues "BUILD") (Get responseValues "TOKEN")
              responseValues (usesSandbox pClient)),
      if (negb (Nat.eqb (String.length (Get responseValues "L_ERRORCODE0")) 0)
          || String.eqb (ToLower (Get responseValues "ACK")) "failure"
          || String.eqb (ToLower (Get responseValues "ACK")) "failurewithwarning")%bool
      then Some (PayPalErr (PayPalError.mk
                   (Get responseValues "ACK") (Get responseValues "L_ERRORCODE0")
                   (Get responseValues "L_SHORTMESSAGE0")
                   (Get responseValues "L_LONGMESSAGE0")
                   (Get responseValues "L_SEVERITYCODE0")))
      else None),
     Close (Body formResponse) w2).
Proof.
  intros Hpost Hread Hparse. unfold PerformRequest.
  rewrite Hpost, Hread, Hparse. simpl.
  destruct (negb (Nat.eqb (String.length (Get responseValues "L_ERRORCODE0")) 0)
            || String.eqb (ToLower (Get responseValues "ACK")) "failure"
            || String.eqb (ToLower (Get responseValues "ACK")) "failurewithwarning")%bool;
    reflexivity.
Qed.

Lemma Get_absent (values : url.Values) (key : string) :
  values !! key = None -> Get values key = "".
Proof.
  intros H. unfold Get. rewrite H. reflexivity.
Qed.

(** C1. Once the response body has been read and parsed without error,
    [PerformRequest] returns the populated response (a non-nil pointer),
    and it returns a [PayPalError] exactly when the mapping's
    [L_ERRORCODE0] is non-empty or its lower-cased [ACK] is "failure" or
    "failurewithwarning". The error's five fields are the mapping's
    [ACK], [L_ERRORCODE0], [L_SHORTMESSAGE0], [L_LONGMESSAGE0] and
    [L_SEVERITYCODE0]; otherwise there is no error. With [strings.ToLower]
    lower-casing ASCII text as it does, [ACK=Success] without an
    error-code field gives no error, and [ACK=Failure] gives an error
    whose [Ack] is "Failure". *)
Theorem PerformRequest_error_iff (pClient : PayPalClient World) (values : url.Values)
    (w w1 w2 : World) (formResponse : http_Response World) (body : string)
    (responseValues : url.Values) :
  (∀ s, isASCII s = true -> ToLower s = ToLower_ascii s) ->
  PostForm (client pClient)
    (if usesSandbox pClient then NVP_SANDBOX_URL else NVP_PRODUCTION_URL)
    (Add (Add (Add (Add values "USER" (username pClient)) "PWD" (password pClient))
              "SIGNATURE" (signature pClient)) "VERSION" NVP_VERSION)
    w = (inl formResponse, w1) ->
  ReadAll (Body formResponse) w1 = (inl body, w2) ->
  ParseQuery body = (responseValues, None) ->
  let returned := fst (PerformRequest ToLower ParseQuery pClient values w) in
  fst returned
  = Some (PayPalResponse.mk
            (Get responseValues "ACK") (Get responseValues "CORRELATIONID")
            (Get responseValues "TIMESTAMP") (Get responseValues "VERSION")
            (Get responseValues "BUILD") (Get responseValues "TOKEN")
            responseValues (usesSandbox pClient))
  ∧ (remote_failure ToLower responseValues <-> ∃ e, snd returned = Some (PayPalErr e))
  ∧ (remote_failure ToLower responseValues ->
     snd returned
     = Some (PayPalErr (PayPalError.mk
               (Get responseValues "ACK") (Get responseValues "L_ERRORCODE0")
               (Get responseValues "L_SHORTMESSAGE0")
               (Get responseValues "L_LONGMESSAGE0")
               (Get responseValues "L_SEVERITYCODE0"))))
  ∧ (¬ remote_failure ToLower responseValues -> snd returned = None)
  ∧ (Get responseValues "ACK" = "Success" -> responseValues !! "L_ERRORCODE0" = None ->
     snd returned = None)
  ∧ (Get responseValues "ACK" = "Failure" ->
     ∃ e, snd returned = Some (PayPalErr e) ∧ PayPalError.Ack e = "Failure").
Proof.
  intros Hlower Hpost Hread Hparse returned. subst returned.
  rewrite (PerformRequest_parsed pClient values w w1 w2 formResponse body responseValues
             Hpost Hread Hparse).
  cbn [fst snd].
  pose proof (remote_failure_true responseValues) as Hcond.
  destruct (negb (Nat.eqb (String.length (Get responseValues "L_ERRORCODE0")) 0)
            || String.eqb (ToLower (Get responseValues "ACK")) "failure"
            || String.eqb (ToLower (Get responseValues "ACK")) "failurewithwarning")%bool
    eqn:Hb.
  - assert (Hf : remote_failure ToLower responseValues) by (apply Hcond; reflexivity).
    split; [reflexivity |].
    split; [split; [intros _; eexists; reflexivity | intros _; exact Hf] |].
    split; [intros _; reflexivity |].
    split; [intros Hn; exfalso; exact (Hn Hf) |].
    split.
    + intros Hack Hcode. exfalso.
      destruct Hf as [Hf | [Hf | Hf]].
      * apply Hf. apply Get_absent. exact Hcode.
      * rewrite Hack, Hlower in Hf by reflexivity. discriminate Hf.
      * rewrite Hack, Hlower in Hf by reflexivity. discriminate Hf.
    + intros Hack. eexists. split; [reflexivity |]. exact Hack.
  - assert (Hf : ¬ remote_failure ToLower responseValues).
    { intros Hf. apply Hcond in Hf. discriminate Hf. }
    split; [reflexivity |].
    split; [split; [intros H; exfalso; exact (Hf H) | intros [e He]; discriminate He] |].
    split; [intros H; exfalso; exact (Hf H) |].
    split; [intros _; reflexivity |].
    split; [intros _ _; reflexivity |].
    intros Hack. exfalso. apply Hf. right. left.
    rewrite Hack, Hlower by reflexivity. reflexivity.
Qed.

(** C10. When the POST fails, or the body of the response cannot be
    read, [PerformRequest] returns a nil response together with the
    underlying error, unchanged. The result does not depend on the parser
    or on the lower-casing function (no field is parsed), and reading any
    field through the returned pointer panics. *)
Theorem PerformRequest_transport_failure (pClient : PayPalClient World)
    (values : url.Values) (w w' : World) (err : error) :
  transport_failure pClient values w err w' ->
  PerformRequest ToLower ParseQuery pClient values w = ((None, Some err), w')
  ∧ (∀ ToLower' ParseQuery',
       PerformRequest ToLower' ParseQuery' pClient values w
       = PerformRequest ToLower ParseQuery pClient values w)
  ∧ (∀ (B : Type) (field : PayPalResponse.t -> B),
       deref (fst (fst (PerformRequest ToLower ParseQuery pClient values w))) field
       = Panics).
Proof.
  intros Hfail.
  assert (Hany : ∀ ToLower' ParseQuery',
             PerformRequest ToLower' ParseQuery' pClient values w = ((None, Some err), w')).
  { intros ToLower' ParseQuery'. unfold PerformRequest.
    destruct Hfail as [err w1 Hpost | formResponse w1 err w2 Hpost Hread].
    - rewrite Hpost. reflexivity.
    - rewrite Hpost, Hread. reflexivity. }
  split; [apply Hany |].
  split.
  - intros ToLower' ParseQuery'. rewrite !Hany. reflexivity.
  - intros B field. rewrite Hany. reflexivity.
Qed.

(** C7. [DoExpressCheckoutSale] is [DoExpressCheckoutPayment] with the
    payment type "Sale": for every client, token, payer, currency code and
    amount the two are the same function of the network state, so they
    return the same response and the same error and leave the same world;
    the request they post carries the payment action "Sale". *)
Theorem DoExpressCheckoutSale_is_Payment_Sale (pClient : PayPalClient World)
    (token payerId currencyCode : string) (finalPaymentAmount : float) :
  DoExpressCheckoutSale ToLower ParseQuery pClient token payerId currencyCode
    finalPaymentAmount
  = DoExpressCheckoutPayment ToLower ParseQuery pClient token payerId "Sale" currencyCode
      finalPaymentAmount
  ∧ (∀ w : World,
       DoExpressCheckoutSale ToLower ParseQuery pClient token payerId currencyCode
         finalPaymentAmount w
       = PerformRequest ToLower ParseQuery pClient
           (DoExpressCheckoutPayment_values token payerId "Sale" currencyCode
              finalPaymentAmount) w)
  ∧ DoExpressCheckoutPayment_values token payerId "Sale" currencyCode finalPaymentAmount
      !! "PAYMENTREQUEST_0_PAYMENTACTION" = Some ["Sale"].
Proof.
  split; [reflexivity |].
  split; [intros w; reflexivity |].
  unfold DoExpressCheckoutPayment_values.
  rewrite !Add_lookup_ne by discriminate. rewrite Add_lookup_eq.
  rewrite !Add_lookup_ne by discriminate.
  unfold Set_. rewrite lookup_insert_ne by discriminate. rewrite lookup_empty.
  reflexivity.
Qed.

End GatewayProperties.

(** A run of [PerformRequest] against a transport that answers with a
    failure acknowledgement. *)
Lemma PerformRequest_error_iff_witness :
  ∃ e,
    snd (fst (PerformRequest ToLower_ascii ParseQuery_ref
                (Build_PayPalClient Log "user" "secret" "sig" true
                   (canned_client "ACK=Failure&L_ERRORCODE0=10001&L_SHORTMESSAGE0=Internal+Error"))
                (GetExpressCheckoutDetails_values "EC-123") []))
    = Some (PayPalErr e)
    ∧ PayPalError.Ack e = "Failure".
Proof.
  refine (proj2 (proj2 (proj2 (proj2 (proj2
    (PerformRequest_error_iff ToLower_ascii ParseQuery_ref
       (Build_PayPalClient Log "user" "secret" "sig" true
          (canned_client "ACK=Failure&L_ERRORCODE0=10001&L_SHORTMESSAGE0=Internal+Error"))
       (GetExpressCheckoutDetails_values "EC-123") [] _ _ _
       "ACK=Failure&L_ERRORCODE0=10001&L_SHORTMESSAGE0=Internal+Error"
       (fst (ParseQuery_ref "ACK=Failure&L_ERRORCODE0=10001&L_SHORTMESSAGE0=Internal+Error"))
       _ _ _ _))))) _).
  - intros s _. reflexivity.
  - reflexivity.
  - reflexivity.
  - vm_compute. reflexivity.
  - vm_compute. reflexivity.
Defined.

(** A refused connection: the error of the transport comes back as it is. *)
Lemma PerformRequest_transport_failure_witness :
  PerformRequest ToLower_ascii ParseQuery_ref
    (Build_PayPalClient Log "user" "secret" "sig" false refusing_client)
    (GetExpressCheckoutDetails_values "EC-123") []
  = ((None, Some (errorString "connection refused")), []).
Proof.
  refine (proj1 (PerformRequest_transport_failure ToLower_ascii ParseQuery_ref
            (Build_PayPalClient Log "user" "secret" "sig" false refusing_client)
            (GetExpressCheckoutDetails_values "EC-123") [] []
            (errorString "connection refused") _)).
  apply post_failed. reflexivity.
Defined.

(** The same for a body that cannot be read. *)
Example PerformRequest_read_failure :
  fst (PerformRequest ToLower_ascii ParseQuery_ref
         (Build_PayPalClient Log "user" "secret" "sig" false truncating_client)
         (GetExpressCheckoutDetails_values "EC-123") [])
  = (None, Some (errorString "unexpected EOF")).
Proof. reflexivity. Qed.

(** A parse error is returned with a response that carries only the
    environment flag. *)
Example PerformRequest_parse_failure :
  fst (PerformRequest ToLower_ascii ParseQuery_ref
         (Build_PayPalClient Log "user" "secret" "sig" true (canned_client "ACK=%zz"))
         (GetExpressCheckoutDetails_values "EC-123") [])
  = (Some (PayPalResponse.mk "" "" "" "" "" "" ∅ true), Some (EscapeError "%zz")).
Proof. vm_compute. reflexivity. Qed.

(** ** [CheckoutUrl] *)

Lemma Encode_cmd_token (token : string) :
  Encode (Add (Set_ ∅ "cmd" "_express-checkout") "token" token)
  = "cmd=_express-checkout&token=" +:+ QueryEscape token.
Proof.
  unfold Encode.
  assert (Hkeys : merge_sort String.le
            (fst <$> map_to_list (Add (Set_ (∅ : url.Values) "cmd" "_express-checkout")
                                      "token" token))
          = ["cmd"; "token"]) by (vm_compute; reflexivity).
  rewrite Hkeys. cbn [fold_left].
  rewrite Add_lookup_eq, Add_lookup_ne by discriminate.
  unfold Set_. rewrite lookup_insert_eq, lookup_insert_ne by discriminate.
  rewrite lookup_empty. reflexivity.
Qed.

Lemma QueryEscape_unreserved (s : string) : unreserved s = true -> QueryEscape s = s.
Proof.
  unfold unreserved. induction s as [| c s IH]; simpl; intros H.
  - reflexivity.
  - apply andb_true_iff in H as [Hc Hs]. apply negb_true_iff in Hc.
    rewrite Hc, (IH Hs). reflexivity.
Qed.

(** C6 (as the code has it). [CheckoutUrl] returns the sandbox checkout
    URL when the response's own flag [usedSandbox] is set and the
    production URL otherwise, followed by a question mark and the query
    [cmd=_express-checkout&token=<t>], where [<t>] is the token as
    [url.QueryEscape] writes it. A token of unreserved characters appears
    verbatim; a sandbox response with token "EC-123" gives the sandbox URL
    with the query [cmd=_express-checkout&token=EC-123]. *)
Theorem CheckoutUrl_escaped :
  (∀ r : PayPalResponse.t,
     PayPalResponse.CheckoutUrl r
     = (if PayPalResponse.usedSandbox r
        then CHECKOUT_SANDBOX_URL else CHECKOUT_PRODUCTION_URL)
       +:+ "?" +:+ "cmd=_express-checkout&token=" +:+ QueryEscape (PayPalResponse.Token r))
  ∧ (∀ r : PayPalResponse.t,
       unreserved (PayPalResponse.Token r) = true ->
       PayPalResponse.CheckoutUrl r
       = (if PayPalResponse.usedSandbox r
          then CHECKOUT_SANDBOX_URL else CHECKOUT_PRODUCTION_URL)
         +:+ "?" +:+ "cmd=_express-checkout&token=" +:+ PayPalResponse.Token r)
  ∧ (∀ ack correlationId timestamp version build values,
       PayPalResponse.CheckoutUrl
         (PayPalResponse.mk ack correlationId timestamp version build "EC-123" values true)
       = "https://www.sandbox.paypal.com/cgi-bin/webscr?cmd=_express-checkout&token=EC-123").
Proof.
  assert (Hall : ∀ r : PayPalResponse.t,
            PayPalResponse.CheckoutUrl r
            = (if PayPalResponse.usedSandbox r
               then CHECKOUT_SANDBOX_URL else CHECKOUT_PRODUCTION_URL)
              +:+ "?" +:+ "cmd=_express-checkout&token="
              +:+ QueryEscape (PayPalResponse.Token r)).
  { intros r. unfold PayPalResponse.CheckoutUrl. rewrite Encode_cmd_token. reflexivity. }
  split; [exact Hall |].
  split.
  - intros r Hr. rewrite Hall, (QueryEscape_unreserved _ Hr). reflexivity.
  - intros. rewrite Hall. reflexivity.
Qed.

(** C6 as stated fails: a token with a space is not appended as it is,
    the space is written as a plus sign. *)
Lemma CheckoutUrl_token_not_verbatim :
  PayPalResponse.CheckoutUrl (PayPalResponse.mk "Success" "" "" "" "" "EC 123" ∅ true)
  = "https://www.sandbox.paypal.com/cgi-bin/webscr?cmd=_express-checkout&token=EC+123"
  ∧ PayPalResponse.CheckoutUrl (PayPalResponse.mk "Success" "" "" "" "" "EC 123" ∅ true)
    ≠ CHECKOUT_SANDBOX_URL +:+ "?" +:+ "cmd=_express-checkout&token=" +:+ "EC 123".
Proof.
  assert (H : PayPalResponse.CheckoutUrl
                (PayPalResponse.mk "Success" "" "" "" "" "EC 123" ∅ true)
              = "https://www.sandbox.paypal.com/cgi-bin/webscr?cmd=_express-checkout&token=EC+123")
    by (vm_compute; reflexivity).
  split; [exact H |].
  rewrite H. vm_compute. intros Heq. discriminate Heq.
Qed.

(** The flag that [CheckoutUrl] reads is the one [PerformRequest] copied
    from the client when it built the response. *)
Lemma PerformRequest_usedSandbox {World : Type} (ToLower : string -> string)
    (ParseQuery : string -> url.Values * option error)
    (pClient : PayPalClient World) (values : url.Values) (w : World)
    (response : PayPalResponse.t) :
  fst (fst (PerformRequest ToLower ParseQuery pClient values w)) = Some response ->
  PayPalResponse.usedSandbox response = usesSandbox pClient.
Proof.
  unfold PerformRequest.
  destruct (PostForm _ _ _ _) as [[formResponse | err] w1]; [| discriminate].
  destruct (ReadAll _ _) as [[body | err] w2]; [| discriminate].
  destruct (ParseQuery body) as [responseValues [err |]].
  - cbn. intros [= <-]. reflexivity.
  - cbn. destruct (_ || _ || _)%bool; cbn; intros [= <-]; reflexivity.
Qed.

(** ** [PayPalPaymentResponse.Populate] *)

Section PopulateProperties.

Variable ParseFloat : string -> float * option NumError.

(** [Populate] overwrites every field of the receiver. *)
Lemma Populate_fields (response : PayPalPaymentResponse.t) (values : url.Values) :
  PayPalPaymentResponse.Populate ParseFloat response values
  = PayPalPaymentResponse.mk
      (Get values "PAYMENTINFO_0_TRANSACTIONID")
      (Get values "PAYMENTINFO_0_PAYMENTSTATUS")
      (Get values "PAYMENTINFO_0_PAYMENTTYPE")
      (fst (ParseFloat (Get values "PAYMENTINFO_0_FEEAMT")))
      (fst (ParseFloat (Get values "PAYMENTINFO_0_AMT")))
      (Get values "PAYMENTINFO_0_CURRENCYCODE")
      (Get values "PAYMENTINFO_0_REASONCODE").
Proof.
  reflexivity.
Qed.

(** What [strconv.ParseFloat] guarantees for text that is not a number:
    the value returned with [ErrSyntax] is zero, and the empty string is
    not a number. *)
Hypothesis ParseFloat_syntax :
  ∀ s f, ParseFloat s = (f, Some ErrSyntax) -> f = 0%float.
Hypothesis ParseFloat_empty : snd (ParseFloat "") = Some ErrSyntax.

Lemma Get_copied (values : url.Values) (key : string) : copied values key (Get values key).
Proof.
  unfold copied, Get. destruct (values !! key) as [[| x xs] |]; reflexivity.
Qed.

Lemma Get_present (values : url.Values) (key x : string) (xs : list string) :
  values !! key = Some (x :: xs) -> Get values key = x.
Proof.
  intros H. unfold Get. rewrite H. reflexivity.
Qed.

Lemma Get_no_value (values : url.Values) (key : string) :
  values !! key = None ∨ values !! key = Some [] -> Get values key = "".
Proof.
  intros [H | H]; unfold Get; rewrite H; reflexivity.
Qed.

(** C5 (as the code has it). [Populate] is a total function that returns
    no error. The five string fields are copied verbatim from their fixed
    keys: each is the first value of its key, the empty string when the
    key is absent. [Amount] is what [strconv.ParseFloat] returns for the
    first value of [PAYMENTINFO_0_AMT], its error being dropped: 0 when
    the key is absent or the text is not a number, and otherwise the
    value returned, which for a number out of range is the infinity that
    comes with [ErrRange]. [Fee] is read from [PAYMENTINFO_0_FEEAMT] in
    the same way. Nothing else is read: two mappings that agree on the
    seven keys give the same result, whatever the receiver held before. *)
Theorem Populate_relaxed (response : PayPalPaymentResponse.t) (values : url.Values) :
  let populated := PayPalPaymentResponse.Populate ParseFloat response values in
  copied values "PAYMENTINFO_0_TRANSACTIONID" (PayPalPaymentResponse.TransactionId populated)
  ∧ copied values "PAYMENTINFO_0_PAYMENTSTATUS" (PayPalPaymentResponse.Status populated)
  ∧ copied values "PAYMENTINFO_0_PAYMENTTYPE" (PayPalPaymentResponse.Type_ populated)
  ∧ copied values "PAYMENTINFO_0_CURRENCYCODE" (PayPalPaymentResponse.Currency populated)
  ∧ copied values "PAYMENTINFO_0_REASONCODE" (PayPalPaymentResponse.ReasonCode populated)
  ∧ (values !! "PAYMENTINFO_0_AMT" = None ∨ values !! "PAYMENTINFO_0_AMT" = Some [] ->
     PayPalPaymentResponse.Amount populated = 0%float)
  ∧ (∀ x xs, values !! "PAYMENTINFO_0_AMT" = Some (x :: xs) ->
       PayPalPaymentResponse.Amount populated = fst (ParseFloat x)
       ∧ (snd (ParseFloat x) = Some ErrSyntax ->
          PayPalPaymentResponse.Amount populated = 0%float))
  ∧ (values !! "PAYMENTINFO_0_FEEAMT" = None ∨ values !! "PAYMENTINFO_0_FEEAMT" = Some [] ->
     PayPalPaymentResponse.Fee populated = 0%float)
  ∧ (∀ x xs, values !! "PAYMENTINFO_0_FEEAMT" = Some (x :: xs) ->
       PayPalPaymentResponse.Fee populated = fst (ParseFloat x)
       ∧ (snd (ParseFloat x) = Some ErrSyntax ->
          PayPalPaymentResponse.Fee populated = 0%float))
  ∧ (∀ response' values',
       (∀ key,
          key ∈ ["PAYMENTINFO_0_TRANSACTIONID"; "PAYMENTINFO_0_PAYMENTSTATUS";
                 "PAYMENTINFO_0_AMT"; "PAYMENTINFO_0_FEEAMT";
                 "PAYMENTINFO_0_CURRENCYCODE"; "PAYMENTINFO_0_PAYMENTTYPE";
                 "PAYMENTINFO_0_REASONCODE"] ->
          Get values' key = Get values key) ->
       PayPalPaymentResponse.Populate ParseFloat response' values' = populated).
Proof.
  intros populated. subst populated. rewrite Populate_fields. cbn.
  assert (Hnumber : ∀ key,
            (values !! key = None ∨ values !! key = Some [] ->
             fst (ParseFloat (Get values key)) = 0%float)
            ∧ (∀ x xs, values !! key = Some (x :: xs) ->
                 fst (ParseFloat (Get values key)) = fst (ParseFloat x)
                 ∧ (snd (ParseFloat x) = Some ErrSyntax ->
                    fst (ParseFloat (Get values key)) = 0%float))).
  { intros key. split.
    - intros Hno. rewrite (Get_no_value _ _ Hno).
      apply (ParseFloat_syntax ""). rewrite <- ParseFloat_empty.
      destruct (ParseFloat ""); reflexivity.
    - intros x xs Hx. rewrite (Get_present _ _ _ _ Hx).
      split; [reflexivity |]. intros Hsyntax.
      apply (ParseFloat_syntax x). rewrite <- Hsyntax.
      destruct (ParseFloat x); reflexivity. }
  do 5 (split; [apply Get_copied |]).
  split; [apply Hnumber |]. split; [apply Hnumber |].
  split; [apply Hnumber |]. split; [apply Hnumber |].
  intros response' values' Hagree. rewrite Populate_fields.
  rewrite !Hagree by (rewrite !elem_of_cons; tauto).
  reflexivity.
Qed.

End PopulateProperties.

Lemma ParseFloat_digits_syntax (s : string) (f : float) :
  ParseFloat_digits s = (f, Some ErrSyntax) -> f = 0%float.
Proof.
  unfold ParseFloat_digits. destruct s as [| c s].
  - intros [= <-]. reflexivity.
  - destruct (digits_value 0 (String c s)) as [n |].
    + destruct (PrimFloat.eqb (float64_of_int n) infinity); intros [= _ H]; discriminate H.
    + intros [= <-]. reflexivity.
Qed.

(** A mapping with a transaction id, an amount that is not a number and
    no fee. *)
Lemma Populate_relaxed_witness :
  PayPalPaymentResponse.TransactionId
    (PayPalPaymentResponse.Populate ParseFloat_digits
       (PayPalPaymentResponse.mk "old" "old" "old" 7 7 "old" "old")
       (fst (ParseQuery_ref "PAYMENTINFO_0_AMT=abc&PAYMENTINFO_0_TRANSACTIONID=T1")))
  = "T1"
  ∧ PayPalPaymentResponse.Amount
      (PayPalPaymentResponse.Populate ParseFloat_digits
         (PayPalPaymentResponse.mk "old" "old" "old" 7 7 "old" "old")
         (fst (ParseQuery_ref "PAYMENTINFO_0_AMT=abc&PAYMENTINFO_0_TRANSACTIONID=T1")))
    = 0%float
  ∧ PayPalPaymentResponse.Fee
      (PayPalPaymentResponse.Populate ParseFloat_digits
         (PayPalPaymentResponse.mk "old" "old" "old" 7 7 "old" "old")
         (fst (ParseQuery_ref "PAYMENTINFO_0_AMT=abc&PAYMENTINFO_0_TRANSACTIONID=T1")))
    = 0%float.
Proof.
  pose proof (Populate_relaxed ParseFloat_digits ParseFloat_digits_syntax
                (eq_refl : snd (ParseFloat_digits "") = Some ErrSyntax)
                (PayPalPaymentResponse.mk "old" "old" "old" 7 7 "old" "old")
                (fst (ParseQuery_ref "PAYMENTINFO_0_AMT=abc&PAYMENTINFO_0_TRANSACTIONID=T1")))
    as (Hid & _ & _ & _ & _ & _ & Hamount & Hfee & _).
  assert (Hid_key :
            fst (ParseQuery_ref "PAYMENTINFO_0_AMT=abc&PAYMENTINFO_0_TRANSACTIONID=T1")
              !! "PAYMENTINFO_0_TRANSACTIONID" = Some ["T1"]) by (vm_compute; reflexivity).
  assert (Hamt_key :
            fst (ParseQuery_ref "PAYMENTINFO_0_AMT=abc&PAYMENTINFO_0_TRANSACTIONID=T1")
              !! "PAYMENTINFO_0_AMT" = Some ["abc"]) by (vm_compute; reflexivity).
  split.
  - unfold copied in Hid. rewrite Hid_key in Hid. exact Hid.
  - split.
    + apply (proj2 (Hamount "abc" [] Hamt_key)). reflexivity.
    + apply Hfee. left. vm_compute. reflexivity.
Defined.

(** C5 as stated fails when "not parseable" is a number out of range:
    the parser reports [ErrRange], and the amount stored is the infinity
    it returns, not zero. *)
Lemma Populate_out_of_range_amount :
  snd (ParseFloat_digits (pretty (10 ^ 400))) = Some ErrRange
  ∧ PayPalPaymentResponse.Amount
      (PayPalPaymentResponse.Populate ParseFloat_digits
         (PayPalPaymentResponse.mk "" "" "" 0 0 "" "")
         (Add ∅ "PAYMENTINFO_0_AMT" (pretty (10 ^ 400))))
    = infinity
  ∧ PrimFloat.eqb infinity 0 = false.
Proof.
  vm_compute. repeat split.
Qed.

Example Populate_not_a_number :
  PayPalPaymentResponse.Populate ParseFloat_digits
    (PayPalPaymentResponse.mk "old" "old" "old" 7 7 "old" "old")
    (fst (ParseQuery_ref "PAYMENTINFO_0_AMT=abc&PAYMENTINFO_0_TRANSACTIONID=T1"))
  = PayPalPaymentResponse.mk "T1" "" "" 0 0 "" "".
Proof. vm_compute. reflexivity. Qed.

(** A number too large for a [float64] is kept as the infinity that
    the parser returns with [ErrRange]. *)
Example Populate_out_of_range :
  PayPalPaymentResponse.Amount
    (PayPalPaymentResponse.Populate ParseFloat_digits
       (PayPalPaymentResponse.mk "" "" "" 0 0 "" "")
       (Add ∅ "PAYMENTINFO_0_AMT" (pretty (10 ^ 400))))
  = infinity.
Proof. vm_compute. reflexivity. Qed.

(** Numbers are read when they are there. *)
Example Populate_numbers :
  PayPalPaymentResponse.Populate ParseFloat_digits
    (PayPalPaymentResponse.mk "" "" "" 0 0 "" "")
    (fst (ParseQuery_ref "PAYMENTINFO_0_AMT=25&PAYMENTINFO_0_FEEAMT=1&PAYMENTINFO_0_CURRENCYCODE=USD"))
  = PayPalPaymentResponse.mk "" "" "" 1 25 "USD" "".
Proof. vm_compute. reflexivity. Qed.

(** ** Line items of the request builders *)

Lemma indexed_inj (field : string) (i j : nat) :
  indexed field i = indexed field j -> i = j.
Proof.
  unfold indexed, Sprintf_d. intros H.
  apply (inj (String.app field)) in H.
  apply (inj pretty) in H. lia.
Qed.

Lemma indexed_eq_iff (f g : string) (i j : nat) :
  f ∈ item_fields -> g ∈ item_fields ->
  indexed f i = indexed g j <-> f = g ∧ i = j.
Proof.
  unfold item_fields. rewrite !elem_of_cons, !elem_of_nil.
  intros Hf Hg. split.
  - intros H.
    destruct Hf as [-> | [-> | [-> | [-> | [-> | []]]]]];
      destruct Hg as [-> | [-> | [-> | [-> | [-> | []]]]]];
      first [ split; [reflexivity | exact (indexed_inj _ _ _ H)]
            | exfalso; unfold indexed in H; simpl in H; discriminate H ].
  - intros [-> ->]. reflexivity.
Qed.

Lemma Add_indexed_lookup (v : url.Values) (f g : string) (i j : nat) (x : string) :
  f ∈ item_fields -> g ∈ item_fields ->
  Add v (indexed f i) x !! indexed g j
  = if decide (f = g ∧ i = j)
    then Some (default [] (v !! indexed f i) ++ [x])%list
    else v !! indexed g j.
Proof.
  intros Hf Hg. case_decide as Hd.
  - destruct Hd as [-> ->]. apply Add_lookup_eq.
  - apply Add_lookup_ne. intros Heq. apply Hd. apply indexed_eq_iff; assumption.
Qed.

Ltac item_field :=
  unfold item_fields;
  repeat first [apply list_elem_of_here | apply list_elem_of_further].

(** One round of the loop of [SetExpressCheckout]. *)
Lemma goods_loop_one (i : nat) (good : PayPalGood.t) (values : url.Values)
    (g : string) (j : nat) :
  g ∈ item_fields -> fresh_from i values ->
  goods_loop i [good] values !! indexed g j
  = if decide (j = i) then good_field g good else values !! indexed g j.
Proof.
  intros Hg Hfresh. cbn [goods_loop].
  assert (Hnone : ∀ f, f ∈ item_fields -> values !! indexed f i = None)
    by (intros f Hf; apply Hfresh; [exact Hf | lia]).
  unfold good_field.
  destruct (String.eqb (PayPalGood.Id good) "") eqn:Hid; cbn [negb];
    rewrite !Add_indexed_lookup by (first [exact Hg | item_field]);
    rewrite ?Add_indexed_lookup by (first [exact Hg | item_field]);
    rewrite !Hnone by item_field; cbn [default app];
    repeat case_decide; try reflexivity;
    repeat match goal with H : _ ∧ _ |- _ => destruct H end;
    subst; try congruence; try discriminate.
  all: try (apply Hnone; assumption).
  all: exfalso; unfold item_fields in Hg; rewrite !elem_of_cons, elem_of_nil in Hg;
    intuition congruence.
Qed.

Lemma goods_loop_cons (i : nat) (good : PayPalGood.t) (rest : list PayPalGood.t)
    (values : url.Values) :
  goods_loop i (good :: rest) values = goods_loop (S i) rest (goods_loop i [good] values).
Proof.
  reflexivity.
Qed.

Lemma goods_loop_one_fresh (i : nat) (good : PayPalGood.t) (values : url.Values) :
  fresh_from i values -> fresh_from (S i) (goods_loop i [good] values).
Proof.
  intros Hfresh f j Hf Hj. rewrite goods_loop_one by assumption.
  case_decide; [lia |]. apply Hfresh; [assumption | lia].
Qed.

(** The loop of [SetExpressCheckout], field by field: the fields of the
    indices [i .. i + len(goods) - 1] hold what the item at that position
    gives, every other indexed field is as before. *)
Lemma goods_loop_lookup (goods : list PayPalGood.t) :
  ∀ (i : nat) (values : url.Values) (g : string) (j : nat),
    g ∈ item_fields -> fresh_from i values ->
    goods_loop i goods values !! indexed g j
    = if decide (i <= j < i + length goods)%nat
      then match goods !! (j - i)%nat with
           | Some good => good_field g good
           | None => None
           end
      else values !! indexed g j.
Proof.
  induction goods as [| good rest IH]; intros i values g j Hg Hfresh.
  - cbn [goods_loop length]. case_decide; [lia | reflexivity].
  - rewrite goods_loop_cons, IH by (first [assumption | apply goods_loop_one_fresh; assumption]).
    rewrite goods_loop_one by assumption. cbn [length].
    destruct (decide (S i <= j < S i + length rest)%nat) as [Hin | Hout].
    + rewrite decide_True by lia.
      replace (j - i)%nat with (S (j - S i)) by lia. reflexivity.
    + destruct (decide (j = i)) as [-> | Hne].
      * rewrite decide_True by lia. rewrite Nat.sub_diag. reflexivity.
      * rewrite decide_False by lia. reflexivity.
Qed.

(** A key that is no indexed item field is left alone by the loop. *)
Lemma goods_loop_other (goods : list PayPalGood.t) :
  ∀ (i : nat) (values : url.Values) (key : string),
    (∀ f j, f ∈ item_fields -> key ≠ indexed f j) ->
    goods_loop i goods values !! key = values !! key.
Proof.
  induction goods as [| good rest IH]; intros i values key Hkey.
  - reflexivity.
  - cbn [goods_loop]. rewrite IH by assumption.
    rewrite !Add_lookup_ne by (apply not_eq_sym, Hkey; item_field).
    destruct (negb (String.eqb (PayPalGood.Id good) "")); [| reflexivity].
    apply Add_lookup_ne, not_eq_sym, Hkey. item_field.
Qed.

(** One round of the loop of [SetExpressCheckoutDigitalGoods]. *)
Lemma digital_goods_loop_one (i : nat) (good : PayPalDigitalGood.t) (values : url.Values)
    (g : string) (j : nat) :
  g ∈ item_fields -> fresh_from i values ->
  digital_goods_loop i [good] values !! indexed g j
  = if decide (j = i) then digital_good_field g good else values !! indexed g j.
Proof.
  intros Hg Hfresh. cbn [digital_goods_loop].
  assert (Hnone : ∀ f, f ∈ item_fields -> values !! indexed f i = None)
    by (intros f Hf; apply Hfresh; [exact Hf | lia]).
  unfold digital_good_field.
  rewrite !Add_indexed_lookup by (first [exact Hg | item_field]).
  rewrite ?Add_indexed_lookup by (first [exact Hg | item_field]).
  rewrite !Hnone by item_field. cbn [default app].
  repeat case_decide; try reflexivity;
    repeat match goal with H : _ ∧ _ |- _ => destruct H end;
    subst; try congruence; try discriminate.
  all: try (apply Hnone; assumption).
  all: exfalso; unfold item_fields in Hg; rewrite !elem_of_cons, elem_of_nil in Hg;
    intuition congruence.
Qed.

Lemma digital_goods_loop_cons (i : nat) (good : PayPalDigitalGood.t)
    (rest : list PayPalDigitalGood.t) (values : url.Values) :
  digital_goods_loop i (good :: rest) values
  = digital_goods_loop (S i) rest (digital_goods_loop i [good] values).
Proof.
  reflexivity.
Qed.

Lemma digital_goods_loop_one_fresh (i : nat) (good : PayPalDigitalGood.t)
    (values : url.Values) :
  fresh_from i values -> fresh_from (S i) (digital_goods_loop i [good] values).
Proof.
  intros Hfresh f j Hf Hj. rewrite digital_goods_loop_one by assumption.
  case_decide; [lia |]. apply Hfresh; [assumption | lia].
Qed.

Lemma digital_goods_loop_lookup (goods : list PayPalDigitalGood.t) :
  ∀ (i : nat) (values : url.Values) (g : string) (j : nat),
    g ∈ item_fields -> fresh_from i values ->
    digital_goods_loop i goods values !! indexed g j
    = if decide (i <= j < i + length goods)%nat
      then match goods !! (j - i)%nat with
           | Some good => digital_good_field g good
           | None => None
           end
      else values !! indexed g j.
Proof.
  induction goods as [| good rest IH]; intros i values g j Hg Hfresh.
  - cbn [digital_goods_loop length]. case_decide; [lia | reflexivity].
  - rewrite digital_goods_loop_cons, IH
      by (first [assumption | apply digital_goods_loop_one_fresh; assumption]).
    rewrite digital_goods_loop_one by assumption. cbn [length].
    destruct (decide (S i <= j < S i + length rest)%nat) as [Hin | Hout].
    + rewrite decide_True by lia.
      replace (j - i)%nat with (S (j - S i)) by lia. reflexivity.
    + destruct (decide (j = i)) as [-> | Hne].
      * rewrite decide_True by lia. rewrite Nat.sub_diag. reflexivity.
      * rewrite decide_False by lia. reflexivity.
Qed.

Lemma digital_goods_loop_other (goods : list PayPalDigitalGood.t) :
  ∀ (i : nat) (values : url.Values) (key : string),
    (∀ f j, f ∈ item_fields -> key ≠ indexed f j) ->
    digital_goods_loop i goods values !! key = values !! key.
Proof.
  induction goods as [| good rest IH]; intros i values key Hkey.
  - reflexivity.
  - cbn [digital_goods_loop]. rewrite IH by assumption.
    rewrite !Add_lookup_ne by (apply not_eq_sym, Hkey; item_field).
    reflexivity.
Qed.

(** The fixed parameters of a request are no indexed item fields. *)
Ltac fixed_key :=
  let f := fresh "f" in
  let j := fresh "j" in
  let Hf := fresh "Hf" in
  let H := fresh "H" in
  intros f j Hf H;
  unfold item_fields in Hf; rewrite !elem_of_cons, elem_of_nil in Hf;
  destruct Hf as [-> | [-> | [-> | [-> | [-> | []]]]]];
  unfold indexed in H; simpl in H; discriminate H.

Lemma fresh_from_empty (i : nat) : fresh_from i ∅.
Proof.
  intros f j _ _. apply lookup_empty.
Qed.

Lemma fresh_from_Add_fixed (i : nat) (values : url.Values) (key x : string) :
  (∀ f j, f ∈ item_fields -> key ≠ indexed f j) ->
  fresh_from i values -> fresh_from i (Add values key x).
Proof.
  intros Hkey Hfresh f j Hf Hj.
  rewrite Add_lookup_ne by (apply Hkey; assumption).
  apply Hfresh; assumption.
Qed.

Lemma fresh_from_Set_fixed (i : nat) (values : url.Values) (key x : string) :
  (∀ f j, f ∈ item_fields -> key ≠ indexed f j) ->
  fresh_from i values -> fresh_from i (Set_ values key x).
Proof.
  intros Hkey Hfresh f j Hf Hj. unfold Set_.
  rewrite lookup_insert_ne by (apply Hkey; assumption).
  apply Hfresh; assumption.
Qed.

Ltac fresh_fixed :=
  repeat first [ apply fresh_from_empty
               | apply fresh_from_Add_fixed; [fixed_key |]
               | apply fresh_from_Set_fixed; [fixed_key |] ].

(** Every indexed field of the request that [SetExpressCheckout] builds:
    the items first, then the discount item when there is one, and
    nothing after. *)
Lemma SetExpressCheckout_values_lookup (order : PayPalOrder.t) (goods : list PayPalGood.t)
    (g : string) (j : nat) :
  g ∈ item_fields ->
  SetExpressCheckout_values order goods !! indexed g j
  = if decide (j < length goods)%nat
    then match goods !! j with
         | Some good => good_field g good
         | None => None
         end
    else if (bool_decide (j = length goods) && (0 <? PayPalOrder.Discount order)%float)%bool
         then discount_field g order
         else None.
Proof.
  intros Hg. unfold SetExpressCheckout_values.
  match goal with
  | |- context [goods_loop 0 goods ?b] =>
      set (base := b);
      assert (Hbase : fresh_from 0 base) by (subst base; fresh_fixed)
  end.
  assert (Hloop : ∀ f k, f ∈ item_fields ->
            goods_loop 0 goods base !! indexed f k
            = if decide (k < length goods)%nat
              then match goods !! k with
                   | Some good => good_field f good
                   | None => None
                   end
              else None).
  { intros f k Hf. rewrite goods_loop_lookup by assumption.
    rewrite Nat.sub_0_r.
    destruct (decide (k < length goods)%nat).
    - rewrite decide_True by lia. reflexivity.
    - rewrite decide_False by lia. apply Hbase; [assumption | lia]. }
  destruct (0 <? PayPalOrder.Discount order)%float.
  - rewrite !Add_indexed_lookup by (first [exact Hg | item_field]).
    assert (Hn : ∀ f, f ∈ item_fields ->
              goods_loop 0 goods base !! indexed f (length goods) = None).
    { intros f Hf. rewrite Hloop by assumption. case_decide; [lia | reflexivity]. }
    rewrite !Hn by item_field. rewrite Hloop by assumption.
    cbn [default app]. rewrite andb_true_r.
    unfold discount_field.
    destruct (decide (j < length goods)%nat) as [Hlt | Hge].
    + rewrite !decide_False by (intros [_ Heq]; lia). reflexivity.
    + destruct (bool_decide_reflect (j = length goods)) as [-> | Hne].
      * repeat case_decide; try reflexivity;
          repeat match goal with H : _ ∧ _ |- _ => destruct H end;
          subst; try congruence; try discriminate.
        all: exfalso; intuition congruence.
      * rewrite !decide_False by (intros [_ Heq]; congruence). reflexivity.
  - rewrite Hloop by assumption. rewrite andb_false_r. reflexivity.
Qed.

Lemma SetExpressCheckoutDigitalGoods_values_lookup (paymentAmount : float)
    (currencyCode returnURL cancelURL : string) (goods : list PayPalDigitalGood.t)
    (g : string) (j : nat) :
  g ∈ item_fields ->
  SetExpressCheckoutDigitalGoods_values paymentAmount currencyCode returnURL cancelURL goods
    !! indexed g j
  = if decide (j < length goods)%nat
    then match goods !! j with
         | Some good => digital_good_field g good
         | None => None
         end
    else None.
Proof.
  intros Hg. unfold SetExpressCheckoutDigitalGoods_values.
  match goal with
  | |- context [digital_goods_loop 0 goods ?b] =>
      set (base := b);
      assert (Hbase : fresh_from 0 base) by (subst base; fresh_fixed)
  end.
  rewrite digital_goods_loop_lookup by assumption.
  rewrite Nat.sub_0_r.
  destruct (decide (j < length goods)%nat).
  - rewrite decide_True by lia. reflexivity.
  - rewrite decide_False by lia. apply Hbase; [assumption | lia].
Qed.

(** Which keys a request can hold at all. *)
Lemma Add_is_Some (v : url.Values) (key x key' : string) :
  is_Some (Add v key x !! key') -> key' = key ∨ is_Some (v !! key').
Proof.
  unfold Add. destruct (decide (key = key')) as [-> | Hne].
  - intros _. left. reflexivity.
  - rewrite lookup_insert_ne by exact Hne. intros H. right. exact H.
Qed.

Lemma Set_is_Some (v : url.Values) (key x key' : string) :
  is_Some (Set_ v key x !! key') -> key' = key ∨ is_Some (v !! key').
Proof.
  unfold Set_. destruct (decide (key = key')) as [-> | Hne].
  - intros _. left. reflexivity.
  - rewrite lookup_insert_ne by exact Hne. intros H. right. exact H.
Qed.

Lemma goods_loop_keys (goods : list PayPalGood.t) :
  ∀ (i : nat) (values : url.Values) (key : string),
    is_Some (goods_loop i goods values !! key) ->
    is_Some (values !! key)
    ∨ ∃ f j, f ∈ item_fields ∧ (i <= j < i + length goods)%nat ∧ key = indexed f j.
Proof.
  induction goods as [| good rest IH]; intros i values key Hkey.
  - left. exact Hkey.
  - cbn [goods_loop] in Hkey. apply IH in Hkey as [Hkey | (f & j & Hf & Hj & ->)].
    + assert (Here : ∀ f, f ∈ item_fields ->
                is_Some (values !! key)
                ∨ ∃ f' j, f' ∈ item_fields
                          ∧ (i <= j < i + length (good :: rest))%nat
                          ∧ indexed f i = indexed f' j).
      { intros f Hf. right. exists f, i. cbn [length].
        split; [exact Hf |]. split; [lia | reflexivity]. }
      apply Add_is_Some in Hkey as [-> | Hkey]; [apply Here; item_field |].
      apply Add_is_Some in Hkey as [-> | Hkey]; [apply Here; item_field |].
      apply Add_is_Some in Hkey as [-> | Hkey]; [apply Here; item_field |].
      destruct (negb (String.eqb (PayPalGood.Id good) "")); [| left; exact Hkey].
      apply Add_is_Some in Hkey as [-> | Hkey]; [apply Here; item_field |].
      left. exact Hkey.
    + right. exists f, j. cbn [length]. split; [exact Hf |]. split; [lia | reflexivity].
Qed.

Lemma digital_goods_loop_keys (goods : list PayPalDigitalGood.t) :
  ∀ (i : nat) (values : url.Values) (key : string),
    is_Some (digital_goods_loop i goods values !! key) ->
    is_Some (values !! key)
    ∨ ∃ f j, f ∈ item_fields ∧ (i <= j < i + length goods)%nat ∧ key = indexed f j.
Proof.
  induction goods as [| good rest IH]; intros i values key Hkey.
  - left. exact Hkey.
  - cbn [digital_goods_loop] in Hkey.
    apply IH in Hkey as [Hkey | (f & j & Hf & Hj & ->)].
    + assert (Here : ∀ f, f ∈ item_fields ->
                is_Some (values !! key)
                ∨ ∃ f' j, f' ∈ item_fields
                          ∧ (i <= j < i + length (good :: rest))%nat
                          ∧ indexed f i = indexed f' j).
      { intros f Hf. right. exists f, i. cbn [length].
        split; [exact Hf |]. split; [lia | reflexivity]. }
      apply Add_is_Some in Hkey as [-> | Hkey]; [apply Here; item_field |].
      apply Add_is_Some in Hkey as [-> | Hkey]; [apply Here; item_field |].
      apply Add_is_Some in Hkey as [-> | Hkey]; [apply Here; item_field |].
      apply Add_is_Some in Hkey as [-> | Hkey]; [apply Here; item_field |].
      left. exact Hkey.
    + right. exists f, j. cbn [length]. split; [exact Hf |]. split; [lia | reflexivity].
Qed.

Ltac fixed_keys_only H :=
  repeat first
    [ apply Add_is_Some in H as [-> | H];
      [left; unfold fixed_fields;
       repeat first [apply list_elem_of_here | apply list_elem_of_further] |]
    | apply Set_is_Some in H as [-> | H];
      [left; unfold fixed_fields;
       repeat first [apply list_elem_of_here | apply list_elem_of_further] |] ];
  rewrite lookup_empty in H; destruct H as [? H]; discriminate H.

Lemma SetExpressCheckout_values_keys (order : PayPalOrder.t) (goods : list PayPalGood.t)
    (key : string) :
  is_Some (SetExpressCheckout_values order goods !! key) ->
  key ∈ fixed_fields
  ∨ ∃ f j, f ∈ item_fields ∧ (j <= length goods)%nat ∧ key = indexed f j.
Proof.
  unfold SetExpressCheckout_values. intros Hkey.
  assert (Hloop : ∀ base,
            is_Some (goods_loop 0 goods base !! key) ->
            is_Some (base !! key)
            ∨ ∃ f j, f ∈ item_fields ∧ (j <= length goods)%nat ∧ key = indexed f j).
  { intros base H. apply goods_loop_keys in H as [H | (f & j & Hf & Hj & ->)].
    - left. exact H.
    - right. exists f, j. split; [exact Hf |]. split; [lia | reflexivity]. }
  assert (Hat : ∀ f, f ∈ item_fields ->
            indexed f (length goods) ∈ fixed_fields
            ∨ ∃ f' j, f' ∈ item_fields ∧ (j <= length goods)%nat
                      ∧ indexed f (length goods) = indexed f' j).
  { intros f Hf. right. exists f, (length goods).
    split; [exact Hf |]. split; [lia | reflexivity]. }
  destruct (0 <? PayPalOrder.Discount order)%float.
  - apply Add_is_Some in Hkey as [-> | Hkey]; [apply Hat; item_field |].
    apply Add_is_Some in Hkey as [-> | Hkey]; [apply Hat; item_field |].
    apply Add_is_Some in Hkey as [-> | Hkey]; [apply Hat; item_field |].
    apply Hloop in Hkey as [Hkey | Hkey]; [| right; exact Hkey].
    fixed_keys_only Hkey.
  - apply Hloop in Hkey as [Hkey | Hkey]; [| right; exact Hkey].
    fixed_keys_only Hkey.
Qed.

Lemma SetExpressCheckoutDigitalGoods_values_keys (paymentAmount : float)
    (currencyCode returnURL cancelURL : string) (goods : list PayPalDigitalGood.t)
    (key : string) :
  is_Some (SetExpressCheckoutDigitalGoods_values paymentAmount currencyCode returnURL
             cancelURL goods !! key) ->
  key ∈ fixed_fields
  ∨ ∃ f j, f ∈ item_fields ∧ (j < length goods)%nat ∧ key = indexed f j.
Proof.
  unfold SetExpressCheckoutDigitalGoods_values. intros Hkey.
  apply digital_goods_loop_keys in Hkey as [Hkey | (f & j & Hf & Hj & ->)].
  - fixed_keys_only Hkey.
  - right. exists f, j. split; [exact Hf |]. split; [lia | reflexivity].
Qed.

(** A discount that is at most zero is not above zero. *)
Lemma leb_zero_not_ltb (d : float) :
  (d <=? 0)%float = true -> (0 <? d)%float = false.
Proof.
  rewrite leb_spec, ltb_spec.
  change (Prim2SF 0) with (S754_zero false).
  destruct (Prim2SF d) as [s | s | | s m e]; try destruct s; cbn; congruence.
Qed.

Ltac field_decide :=
  unfold good_field, digital_good_field, discount_field;
  repeat (case_decide; try discriminate; try congruence).

(** ** The format [%.2f] *)

Lemma pretty_N_char_digit (n : N) : is_digit (pretty_N_char n) = true.
Proof.
  destruct n as [| p]; [reflexivity |].
  do 4 (try destruct p as [p | p |]); reflexivity.
Qed.

Lemma pretty_N_go_digits (x : N) :
  ∀ s, all_digits s = true -> all_digits (pretty_N_go x s) = true.
Proof.
  induction (N.lt_wf_0 x) as [x _ IH]. intros s Hs.
  destruct (decide (x = 0)%N) as [-> | Hx].
  - rewrite pretty_N_go_0. exact Hs.
  - rewrite pretty_N_go_step by lia.
    apply IH; [apply N.div_lt; lia |].
    cbn [all_digits]. rewrite pretty_N_char_digit, Hs. reflexivity.
Qed.

Lemma pretty_N_go_length (x : N) :
  ∀ s, (String.length s <= String.length (pretty_N_go x s))%nat.
Proof.
  induction (N.lt_wf_0 x) as [x _ IH]. intros s.
  destruct (decide (x = 0)%N) as [-> | Hx].
  - rewrite pretty_N_go_0. lia.
  - rewrite pretty_N_go_step by lia.
    etransitivity; [| apply IH; apply N.div_lt; lia]. cbn [String.length]. lia.
Qed.

Lemma pretty_N_digits (n : N) : all_digits (pretty n) = true ∧ pretty n ≠ "".
Proof.
  unfold pretty, pretty_N. case_decide as Hn.
  - split; [reflexivity | discriminate].
  - split; [apply pretty_N_go_digits; reflexivity |].
    rewrite pretty_N_go_step by lia. intros Hempty.
    pose proof (pretty_N_go_length (n `div` 10)%N
                  (String (pretty_N_char (n `mod` 10)%N) "")) as Hlen.
    rewrite Hempty in Hlen. cbn [String.length] in Hlen. lia.
Qed.

Lemma pretty_Z_digits (z : Z) : 0 <= z -> all_digits (pretty z) = true ∧ pretty z ≠ "".
Proof.
  intros Hz. destruct z as [| p | p]; [| | lia].
  - split; [reflexivity | discriminate].
  - apply (pretty_N_digits (N.pos p)).
Qed.

Lemma cut_point (int frac : string) :
  all_digits int = true ->
  cut "." (int +:+ String "." frac) = (int, frac, true).
Proof.
  induction int as [| c int IH]; intros Hd.
  - reflexivity.
  - cbn [all_digits] in Hd. apply andb_true_iff in Hd as [Hc Hd].
    change (String c int +:+ String "." frac) with (String c (int +:+ String "." frac)).
    change (cut "." (String c (int +:+ String "." frac)))
      with (if Ascii.eqb c "."
            then (EmptyString, int +:+ String "." frac, true)
            else let '(before, after, found) := cut "." (int +:+ String "." frac) in
                 (String c before, after, found)).
    rewrite (IH Hd).
    destruct (Ascii.eqb_spec c ".") as [-> | _]; [discriminate Hc | reflexivity].
Qed.

Lemma hundredths_nonneg (m : positive) (e : Z) : 0 <= hundredths m e.
Proof.
  unfold hundredths. destruct (0 <=? e) eqn:He.
  - apply Z.leb_le in He. apply Z.mul_nonneg_nonneg; [lia |].
    apply Z.pow_nonneg. lia.
  - apply Z.leb_gt in He.
    assert (Hd : 0 < 2 ^ (- e)) by (apply Z.pow_pos_nonneg; lia).
    assert (Hq : 0 <= Z.pos m * 100 / 2 ^ (- e)) by (apply Z.div_pos; lia).
    cbv zeta. repeat destruct (_ <? _); try destruct (Z.even _); lia.
Qed.

(** The layout: a sign, digits, a point and two digits. *)
Lemma layout_two_decimals (neg : bool) (int : string) (d1 d2 : ascii) :
  all_digits int = true -> int ≠ "" -> is_digit d1 = true -> is_digit d2 = true ->
  two_decimals ((if neg then "-" else "") +:+ int +:+ String "." (String d1 (String d2 "")))
  = true.
Proof.
  intros Hdigits Hne H1 H2.
  destruct int as [| c int']; [congruence |].
  assert (Hc : Ascii.eqb c "-" = false).
  { cbn [all_digits] in Hdigits. apply andb_true_iff in Hdigits as [Hc _].
    destruct (Ascii.eqb_spec c "-") as [-> | _]; [discriminate Hc | reflexivity]. }
  assert (Hunsigned :
            two_decimals (String c int' +:+ String "." (String d1 (String d2 ""))) = true).
  { unfold two_decimals.
    change (String c int' +:+ String "." (String d1 (String d2 "")))
      with (String c (int' +:+ String "." (String d1 (String d2 "")))).
    cbv iota beta. rewrite Hc.
    change (String c (int' +:+ String "." (String d1 (String d2 ""))))
      with (String c int' +:+ String "." (String d1 (String d2 ""))).
    rewrite cut_point by exact Hdigits.
    rewrite Hdigits. cbn [String.length all_digits]. rewrite H1, H2. reflexivity. }
  destruct neg.
  - unfold two_decimals in Hunsigned |- *.
    change ("-" +:+ String c int' +:+ String "." (String d1 (String d2 "")))
      with (String "-" (String c (int' +:+ String "." (String d1 (String d2 ""))))).
    change (String c int' +:+ String "." (String d1 (String d2 "")))
      with (String c (int' +:+ String "." (String d1 (String d2 "")))) in Hunsigned.
    cbv iota beta in Hunsigned |- *. rewrite Hc in Hunsigned.
    rewrite Ascii.eqb_refl. exact Hunsigned.
  - exact Hunsigned.
Qed.

Lemma fmtF2_two_decimals (neg : bool) (h : Z) :
  0 <= h -> two_decimals (fmtF2 neg h) = true.
Proof.
  intros Hh. unfold fmtF2.
  assert (Hq : 0 <= h / 100) by (apply Z.div_pos; lia).
  destruct (pretty_Z_digits (h / 100) Hq) as [Hdigits Hne].
  apply layout_two_decimals; try assumption; apply pretty_N_char_digit.
Qed.

Lemma Sprintf_2f_finite (x : float) :
  is_finite x = true -> two_decimals (Sprintf_2f x) = true.
Proof.
  unfold is_finite, Sprintf_2f.
  destruct (Prim2SF x) as [s | s | | s m e]; try discriminate; intros _.
  - apply fmtF2_two_decimals. lia.
  - apply fmtF2_two_decimals, hundredths_nonneg.
Qed.

Lemma hundredths_nearest (m : positive) (e : Z) :
  nearest_hundredth m e (hundredths m e).
Proof.
  unfold nearest_hundredth, hundredths.
  destruct (0 <=? e) eqn:He; [reflexivity |].
  apply Z.leb_gt in He.
  assert (Hd : 0 < 2 ^ (- e)) by (apply Z.pow_pos_nonneg; lia).
  set (d := 2 ^ (- e)) in *. set (n := Z.pos m * 100).
  pose proof (Z.div_mod n d ltac:(lia)) as Hdm.
  pose proof (Z.mod_pos_bound n d Hd) as Hr.
  set (q := n / d) in *. set (r := n mod d) in *.
  cbv zeta.
  destruct (2 * r <? d) eqn:H1; [apply Z.ltb_lt in H1 | apply Z.ltb_ge in H1].
  - split; [nia | intros Htie; nia].
  - destruct (d <? 2 * r) eqn:H2; [apply Z.ltb_lt in H2 | apply Z.ltb_ge in H2].
    + split; [nia | intros Htie; nia].
    + destruct (Z.even q) eqn:Hq.
      * split; [nia | intros _; exact Hq].
      * split; [nia |]. intros _.
        rewrite Z.add_1_r, Z.even_succ, <- Z.negb_even, Hq. reflexivity.
Qed.

(** ** The line items and the discount item *)

(** The format of a negated discount: for a finite discount above zero,
    a minus sign before the format of the discount itself. *)
Lemma Sprintf_2f_opp_finite (d : float) :
  (0 <? d)%float = true -> is_finite d = true ->
  Sprintf_2f (- d)%float = String "-" (Sprintf_2f d)
  ∧ two_decimals (Sprintf_2f (- d)%float) = true.
Proof.
  intros Hpos Hfin. unfold is_finite in Hfin. unfold Sprintf_2f.
  rewrite opp_spec. rewrite ltb_spec in Hpos.
  change (Prim2SF 0) with (S754_zero false) in Hpos.
  destruct (Prim2SF d) as [s | s | | s m e]; try discriminate Hfin;
    destruct s; cbn in Hpos; try discriminate Hpos.
  cbn [SFopp negb]. split; [reflexivity |].
  apply fmtF2_two_decimals, hundredths_nonneg.
Qed.

Lemma Sprintf_2f_opp_infinite (d : float) :
  (0 <? d)%float = true -> is_finite d = false ->
  Sprintf_2f (- d)%float = "-Inf".
Proof.
  intros Hpos Hinf. unfold is_finite in Hinf. unfold Sprintf_2f.
  rewrite opp_spec. rewrite ltb_spec in Hpos.
  change (Prim2SF 0) with (S754_zero false) in Hpos.
  destruct (Prim2SF d) as [s | s | | s m e]; try discriminate Hinf;
    try destruct s; cbn in Hpos; try discriminate Hpos.
  reflexivity.
Qed.

(** C2 (as the code has it). In the request that [SetExpressCheckout]
    builds for an order and [n] goods: when the discount is above zero
    there is one further line item at index [n], after all real items,
    with name "DISCOUNT", quantity "1" and, as amount, the [%.2f] format
    of the negated discount (and no other indexed field at [n] or
    beyond). For a finite discount that amount is a minus sign followed
    by the format of the discount, a text with exactly two decimals; for
    an infinite discount it is "-Inf". When the discount is at most zero
    no indexed field exists from index [n] on. *)
Theorem SetExpressCheckout_discount (order : PayPalOrder.t) (goods : list PayPalGood.t) :
  let values := SetExpressCheckout_values order goods in
  let n := length goods in
  ((0 <? PayPalOrder.Discount order)%float = true ->
     values !! indexed "L_PAYMENTREQUEST_0_NAME" n = Some ["DISCOUNT"]
     ∧ values !! indexed "L_PAYMENTREQUEST_0_AMT" n
       = Some [Sprintf_2f (- PayPalOrder.Discount order)%float]
     ∧ (is_finite (PayPalOrder.Discount order) = true ->
        values !! indexed "L_PAYMENTREQUEST_0_AMT" n
        = Some [String "-" (Sprintf_2f (PayPalOrder.Discount order))]
        ∧ two_decimals (String "-" (Sprintf_2f (PayPalOrder.Discount order))) = true)
     ∧ (is_finite (PayPalOrder.Discount order) = false ->
        values !! indexed "L_PAYMENTREQUEST_0_AMT" n = Some ["-Inf"])
     ∧ values !! indexed "L_PAYMENTREQUEST_0_QTY" n = Some ["1"]
     ∧ values !! indexed "L_PAYMENTREQUEST_0_NUMBER" n = None
     ∧ values !! indexed "L_PAYMENTREQUEST_0_ITEMCATEGORY" n = None
     ∧ (∀ f j, f ∈ item_fields -> (n < j)%nat -> values !! indexed f j = None))
  ∧ ((PayPalOrder.Discount order <=? 0)%float = true ->
     ∀ f j, f ∈ item_fields -> (n <= j)%nat -> values !! indexed f j = None).
Proof.
  intros values n. subst values n. split.
  - intros Hpos.
    assert (Hat : ∀ f, f ∈ item_fields ->
              SetExpressCheckout_values order goods !! indexed f (length goods)
              = discount_field f order).
    { intros f Hf. rewrite SetExpressCheckout_values_lookup by assumption.
      rewrite decide_False by lia.
      rewrite bool_decide_eq_true_2 by reflexivity. rewrite Hpos. reflexivity. }
    assert (Hamt : SetExpressCheckout_values order goods
                     !! indexed "L_PAYMENTREQUEST_0_AMT" (length goods)
                   = Some [Sprintf_2f (- PayPalOrder.Discount order)%float]).
    { rewrite Hat by item_field. field_decide; reflexivity. }
    split; [rewrite Hat by item_field; field_decide; reflexivity |].
    split; [exact Hamt |].
    split.
    { intros Hfin. destruct (Sprintf_2f_opp_finite _ Hpos Hfin) as [Htext Htwo].
      rewrite Hamt, <- Htext. split; [reflexivity | exact Htwo]. }
    split.
    { intros Hinf. rewrite Hamt, (Sprintf_2f_opp_infinite _ Hpos Hinf). reflexivity. }
    rewrite !Hat by item_field.
    repeat split; try (field_decide; reflexivity).
    intros f j Hf Hj. rewrite SetExpressCheckout_values_lookup by assumption.
    rewrite decide_False by lia.
    rewrite bool_decide_eq_false_2 by lia. reflexivity.
  - intros Hle f j Hf Hj. rewrite SetExpressCheckout_values_lookup by assumption.
    rewrite decide_False by lia.
    rewrite (leb_zero_not_ltb _ Hle), andb_false_r. reflexivity.
Qed.

(** An order with a discount of one unit and a half on two goods: the
    discount item is the third, with amount "-1.50". *)
Lemma SetExpressCheckout_discount_witness :
  SetExpressCheckout_values
    (PayPalOrder.mk 10 2 1.5 10.5 "USD" "https://shop/return" "https://shop/cancel")
    [PayPalGood.mk "" "pen" 5 1; PayPalGood.mk "sku-2" "ink" 2.5 2]
    !! "L_PAYMENTREQUEST_0_AMT2"
  = Some ["-1.50"]
  ∧ two_decimals "-1.50" = true.
Proof.
  exact (proj1 (proj2 (proj2
           (proj1 (SetExpressCheckout_discount
                     (PayPalOrder.mk 10 2 1.5 10.5 "USD" "https://shop/return"
                        "https://shop/cancel")
                     [PayPalGood.mk "" "pen" 5 1; PayPalGood.mk "sku-2" "ink" 2.5 2])
              eq_refl))) eq_refl).
Defined.

(** C2 as stated fails for an infinite discount: the amount of the
    discount item is "-Inf", which has no decimals. *)
Lemma SetExpressCheckout_discount_infinite :
  (0 <? infinity)%float = true
  ∧ SetExpressCheckout_values
      (PayPalOrder.mk 10 0 infinity 10 "USD" "https://shop/return" "https://shop/cancel")
      [PayPalGood.mk "" "pen" 10 1]
      !! "L_PAYMENTREQUEST_0_AMT1"
    = Some ["-Inf"]
  ∧ two_decimals "-Inf" = false.
Proof.
  vm_compute. repeat split.
Qed.

(** C3 (as the code has it). The request of [SetExpressCheckout] holds,
    for the element at each position [i] of the goods, the fields
    [NAME{i}], [AMT{i}] and [QTY{i}], each with one value, and
    [NUMBER{i}] exactly when the identifier is non-empty; past the last
    element the only indexed fields are those of the discount item. The
    request of [SetExpressCheckoutDigitalGoods] holds [NAME{i}], [AMT{i}],
    [QTY{i}] and [ITEMCATEGORY{i}] = "Digital" for each element and no
    indexed field from the length of the list on. [AMT{i}] is the [%.2f]
    format of the amount, a text with exactly two decimals when the
    amount is finite. Indices start at 0, different positions give
    different field names, and a request holds no key besides its fixed
    parameters and these indexed fields. *)
Theorem line_item_fields :
  (∀ (order : PayPalOrder.t) (goods : list PayPalGood.t),
     let values := SetExpressCheckout_values order goods in
     (∀ i good, goods !! i = Some good ->
        values !! indexed "L_PAYMENTREQUEST_0_NAME" i = Some [PayPalGood.Name good]
        ∧ values !! indexed "L_PAYMENTREQUEST_0_AMT" i
          = Some [Sprintf_2f (PayPalGood.Amount good)]
        ∧ (is_finite (PayPalGood.Amount good) = true ->
           two_decimals (Sprintf_2f (PayPalGood.Amount good)) = true)
        ∧ values !! indexed "L_PAYMENTREQUEST_0_QTY" i
          = Some [Sprintf_d (PayPalGood.Quantity good)]
        ∧ (PayPalGood.Id good ≠ "" ->
           values !! indexed "L_PAYMENTREQUEST_0_NUMBER" i = Some [PayPalGood.Id good])
        ∧ (PayPalGood.Id good = "" ->
           values !! indexed "L_PAYMENTREQUEST_0_NUMBER" i = None)
        ∧ values !! indexed "L_PAYMENTREQUEST_0_ITEMCATEGORY" i = None)
     ∧ (∀ f j, f ∈ item_fields -> (length goods < j)%nat ->
          values !! indexed f j = None)
     ∧ (∀ f, f ∈ item_fields ->
          values !! indexed f (length goods)
          = if (0 <? PayPalOrder.Discount order)%float then discount_field f order else None)
     ∧ (∀ key, is_Some (values !! key) ->
          key ∈ fixed_fields
          ∨ ∃ f j, f ∈ item_fields ∧ (j <= length goods)%nat ∧ key = indexed f j))
  ∧ (∀ (paymentAmount : float) (currencyCode returnURL cancelURL : string)
       (goods : list PayPalDigitalGood.t),
       let values :=
         SetExpressCheckoutDigitalGoods_values paymentAmount currencyCode returnURL
           cancelURL goods in
       (∀ i good, goods !! i = Some good ->
          values !! indexed "L_PAYMENTREQUEST_0_NAME" i = Some [PayPalDigitalGood.Name good]
          ∧ values !! indexed "L_PAYMENTREQUEST_0_AMT" i
            = Some [Sprintf_2f (PayPalDigitalGood.Amount good)]
          ∧ (is_finite (PayPalDigitalGood.Amount good) = true ->
             two_decimals (Sprintf_2f (PayPalDigitalGood.Amount good)) = true)
          ∧ values !! indexed "L_PAYMENTREQUEST_0_QTY" i
            = Some [Sprintf_d (PayPalDigitalGood.Quantity good)]
          ∧ values !! indexed "L_PAYMENTREQUEST_0_ITEMCATEGORY" i = Some ["Digital"]
          ∧ values !! indexed "L_PAYMENTREQUEST_0_NUMBER" i = None)
       ∧ (∀ f j, f ∈ item_fields -> (length goods <= j)%nat ->
            values !! indexed f j = None)
       ∧ (∀ key, is_Some (values !! key) ->
            key ∈ fixed_fields
            ∨ ∃ f j, f ∈ item_fields ∧ (j < length goods)%nat ∧ key = indexed f j))
  ∧ indexed "L_PAYMENTREQUEST_0_NAME" 0 = "L_PAYMENTREQUEST_0_NAME0"
  ∧ (∀ f i j, indexed f i = indexed f j -> i = j).
Proof.
  split; [| split; [| split]].
  - intros order goods values. subst values. split; [| split; [| split]].
    + intros i good Hi.
      assert (Hlt : (i < length goods)%nat) by (eapply lookup_lt_Some; exact Hi).
      assert (Hat : ∀ f, f ∈ item_fields ->
                SetExpressCheckout_values order goods !! indexed f i = good_field f good).
      { intros f Hf. rewrite SetExpressCheckout_values_lookup by assumption.
        rewrite decide_True by assumption. rewrite Hi. reflexivity. }
      rewrite !Hat by item_field.
      split; [field_decide; reflexivity |].
      split; [field_decide; reflexivity |].
      split; [apply Sprintf_2f_finite |].
      repeat split; try (field_decide; reflexivity).
      * intros Hid. field_decide.
        apply String.eqb_neq in Hid. rewrite Hid. reflexivity.
      * intros Hid. field_decide. rewrite Hid. reflexivity.
    + intros f j Hf Hj. rewrite SetExpressCheckout_values_lookup by assumption.
      rewrite decide_False by lia. rewrite bool_decide_eq_false_2 by lia. reflexivity.
    + intros f Hf. rewrite SetExpressCheckout_values_lookup by assumption.
      rewrite decide_False by lia. rewrite bool_decide_eq_true_2 by reflexivity.
      reflexivity.
    + apply SetExpressCheckout_values_keys.
  - intros paymentAmount currencyCode returnURL cancelURL goods values. subst values.
    split; [| split].
    + intros i good Hi.
      assert (Hlt : (i < length goods)%nat) by (eapply lookup_lt_Some; exact Hi).
      assert (Hat : ∀ f, f ∈ item_fields ->
                SetExpressCheckoutDigitalGoods_values paymentAmount currencyCode returnURL
                  cancelURL goods !! indexed f i = digital_good_field f good).
      { intros f Hf. rewrite SetExpressCheckoutDigitalGoods_values_lookup by assumption.
        rewrite decide_True by assumption. rewrite Hi. reflexivity. }
      rewrite !Hat by item_field.
      split; [field_decide; reflexivity |].
      split; [field_decide; reflexivity |].
      split; [apply Sprintf_2f_finite |].
      repeat split; field_decide; reflexivity.
    + intros f j Hf Hj.
      rewrite SetExpressCheckoutDigitalGoods_values_lookup by assumption.
      rewrite decide_False by lia. reflexivity.
    + apply SetExpressCheckoutDigitalGoods_values_keys.
  - reflexivity.
  - apply indexed_inj.
Qed.

(** Two goods, the second with an identifier: the fields of the second
    element, read through the theorem. *)
Lemma line_item_fields_witness :
  SetExpressCheckout_values
    (PayPalOrder.mk 10 2 1.5 10.5 "USD" "https://shop/return" "https://shop/cancel")
    [PayPalGood.mk "" "pen" 5 1; PayPalGood.mk "sku-2" "ink" 2.5 2]
    !! "L_PAYMENTREQUEST_0_NAME1" = Some ["ink"]
  ∧ SetExpressCheckout_values
      (PayPalOrder.mk 10 2 1.5 10.5 "USD" "https://shop/return" "https://shop/cancel")
      [PayPalGood.mk "" "pen" 5 1; PayPalGood.mk "sku-2" "ink" 2.5 2]
      !! "L_PAYMENTREQUEST_0_AMT1" = Some ["2.50"]
  ∧ (is_finite 2.5 = true -> two_decimals "2.50" = true)
  ∧ SetExpressCheckout_values
      (PayPalOrder.mk 10 2 1.5 10.5 "USD" "https://shop/return" "https://shop/cancel")
      [PayPalGood.mk "" "pen" 5 1; PayPalGood.mk "sku-2" "ink" 2.5 2]
      !! "L_PAYMENTREQUEST_0_QTY1" = Some ["2"].
Proof.
  destruct (proj1 (proj1 line_item_fields
                     (PayPalOrder.mk 10 2 1.5 10.5 "USD" "https://shop/return"
                        "https://shop/cancel")
                     [PayPalGood.mk "" "pen" 5 1; PayPalGood.mk "sku-2" "ink" 2.5 2])
              1%nat (PayPalGood.mk "sku-2" "ink" 2.5 2) eq_refl)
    as (Hname & Hamt & Htwo & Hqty & _).
  split; [exact Hname |]. split; [exact Hamt |]. split; [exact Htwo | exact Hqty].
Defined.

(** C3 as stated fails for an amount that is not finite: the [AMT]
    field of such an element is "NaN" (or "+Inf", "-Inf"), not a text
    with two decimals. *)
Lemma line_item_amount_not_a_number :
  SetExpressCheckout_values
    (PayPalOrder.mk 10 0 0 10 "USD" "https://shop/return" "https://shop/cancel")
    [PayPalGood.mk "" "pen" nan 1]
    !! "L_PAYMENTREQUEST_0_AMT0"
  = Some ["NaN"]
  ∧ SetExpressCheckoutDigitalGoods_values 10 "USD" "https://shop/return"
      "https://shop/cancel" [PayPalDigitalGood.mk "song" infinity 1]
      !! "L_PAYMENTREQUEST_0_AMT0"
    = Some ["+Inf"]
  ∧ two_decimals "NaN" = false
  ∧ two_decimals "+Inf" = false.
Proof.
  vm_compute. repeat split.
Qed.

(** A request for two goods and a discount of one unit. *)
Example SetExpressCheckout_two_goods :
  let values :=
    SetExpressCheckout_values
      (PayPalOrder.mk 10 2 1 11 "USD" "https://shop/return" "https://shop/cancel")
      [PayPalGood.mk "" "pen" 5 1; PayPalGood.mk "sku-2" "ink" 2.5 2] in
  values !! "L_PAYMENTREQUEST_0_NAME0" = Some ["pen"]
  ∧ values !! "L_PAYMENTREQUEST_0_NUMBER0" = None
  ∧ values !! "L_PAYMENTREQUEST_0_NAME1" = Some ["ink"]
  ∧ values !! "L_PAYMENTREQUEST_0_AMT1" = Some ["2.50"]
  ∧ values !! "L_PAYMENTREQUEST_0_QTY1" = Some ["2"]
  ∧ values !! "L_PAYMENTREQUEST_0_NUMBER1" = Some ["sku-2"]
  ∧ values !! "L_PAYMENTREQUEST_0_NAME2" = Some ["DISCOUNT"]
  ∧ values !! "L_PAYMENTREQUEST_0_AMT2" = Some ["-1.00"]
  ∧ values !! "L_PAYMENTREQUEST_0_QTY2" = Some ["1"]
  ∧ values !! "L_PAYMENTREQUEST_0_NAME3" = None.
Proof. vm_compute. repeat split. Qed.

(** The value of a fixed parameter, read back from a request. *)
Ltac lookup_fixed :=
  repeat first
    [ rewrite Add_lookup_ne by first [discriminate | (unfold indexed; simpl; discriminate)]
    | rewrite Add_lookup_eq
    | rewrite goods_loop_other by fixed_key
    | rewrite digital_goods_loop_other by fixed_key
    | progress unfold Set_
    | rewrite lookup_insert_ne by discriminate
    | rewrite lookup_empty ];
  reflexivity.

Lemma SetExpressCheckout_values_amounts (order : PayPalOrder.t) (goods : list PayPalGood.t) :
  SetExpressCheckout_values order goods !! "PAYMENTREQUEST_0_ITEMAMT"
  = Some [Sprintf_2f (PayPalOrder.SubTotal order)]
  ∧ SetExpressCheckout_values order goods !! "PAYMENTREQUEST_0_SHIPPINGAMT"
    = Some [Sprintf_2f (PayPalOrder.Shipping order)]
  ∧ SetExpressCheckout_values order goods !! "PAYMENTREQUEST_0_AMT"
    = Some [Sprintf_2f (PayPalOrder.Total order)].
Proof.
  unfold SetExpressCheckout_values.
  destruct (0 <? PayPalOrder.Discount order)%float; repeat split; lookup_fixed.
Qed.

Lemma SetExpressCheckoutDigitalGoods_values_amount (paymentAmount : float)
    (currencyCode returnURL cancelURL : string) (goods : list PayPalDigitalGood.t) :
  SetExpressCheckoutDigitalGoods_values paymentAmount currencyCode returnURL cancelURL goods
    !! "PAYMENTREQUEST_0_AMT"
  = Some [Sprintf_2f paymentAmount].
Proof.
  unfold SetExpressCheckoutDigitalGoods_values. lookup_fixed.
Qed.

Lemma DoExpressCheckoutPayment_values_amount
    (token payerId paymentType currencyCode : string) (finalPaymentAmount : float) :
  DoExpressCheckoutPayment_values token payerId paymentType currencyCode finalPaymentAmount
    !! "PAYMENTREQUEST_0_AMT"
  = Some [Sprintf_2f finalPaymentAmount].
Proof.
  unfold DoExpressCheckoutPayment_values. lookup_fixed.
Qed.

(** C9 (as the code has it). Every amount field of the request builders
    is the [%.2f] format of its input: [PAYMENTREQUEST_0_AMT],
    [PAYMENTREQUEST_0_ITEMAMT], [PAYMENTREQUEST_0_SHIPPINGAMT] and every
    [L_PAYMENTREQUEST_0_AMT{i}]. For a finite input that format is a sign,
    an integer part, a point and exactly two digits, the value rounded to
    the nearest hundredth with a tie going to the even one, whatever the
    precision of the input; the [float64] nearest to 19.999 becomes
    "20.00". *)
Theorem amount_fields_two_decimals :
  (∀ x, is_finite x = true -> two_decimals (Sprintf_2f x) = true)
  ∧ (∀ x s m e, Prim2SF x = S754_finite s m e ->
       ∃ h, nearest_hundredth m e h ∧ Sprintf_2f x = fmtF2 s h)
  ∧ Sprintf_2f 0x1.3ffbe76c8b439p+4%float = "20.00"
  ∧ (∀ (order : PayPalOrder.t) (goods : list PayPalGood.t),
       let values := SetExpressCheckout_values order goods in
       values !! "PAYMENTREQUEST_0_ITEMAMT" = Some [Sprintf_2f (PayPalOrder.SubTotal order)]
       ∧ values !! "PAYMENTREQUEST_0_SHIPPINGAMT"
         = Some [Sprintf_2f (PayPalOrder.Shipping order)]
       ∧ values !! "PAYMENTREQUEST_0_AMT" = Some [Sprintf_2f (PayPalOrder.Total order)]
       ∧ (∀ i good, goods !! i = Some good ->
            values !! indexed "L_PAYMENTREQUEST_0_AMT" i
            = Some [Sprintf_2f (PayPalGood.Amount good)])
       ∧ ((0 <? PayPalOrder.Discount order)%float = true ->
          values !! indexed "L_PAYMENTREQUEST_0_AMT" (length goods)
          = Some [Sprintf_2f (- PayPalOrder.Discount order)%float]))
  ∧ (∀ (paymentAmount : float) (currencyCode returnURL cancelURL : string)
       (goods : list PayPalDigitalGood.t),
       let values :=
         SetExpressCheckoutDigitalGoods_values paymentAmount currencyCode returnURL
           cancelURL goods in
       values !! "PAYMENTREQUEST_0_AMT" = Some [Sprintf_2f paymentAmount]
       ∧ (∀ i good, goods !! i = Some good ->
            values !! indexed "L_PAYMENTREQUEST_0_AMT" i
            = Some [Sprintf_2f (PayPalDigitalGood.Amount good)]))
  ∧ (∀ (token payerId paymentType currencyCode : string) (finalPaymentAmount : float),
       DoExpressCheckoutPayment_values token payerId paymentType currencyCode
         finalPaymentAmount !! "PAYMENTREQUEST_0_AMT"
       = Some [Sprintf_2f finalPaymentAmount]).
Proof.
  split; [exact Sprintf_2f_finite |].
  split.
  { intros x s m e Hx. exists (hundredths m e).
    split; [apply hundredths_nearest |]. unfold Sprintf_2f. rewrite Hx. reflexivity. }
  split; [vm_compute; reflexivity |].
  split; [| split].
  - intros order goods values. subst values.
    destruct (SetExpressCheckout_values_amounts order goods) as (H1 & H2 & H3).
    split; [exact H1 |]. split; [exact H2 |]. split; [exact H3 |]. split.
    + intros i good Hi.
      rewrite SetExpressCheckout_values_lookup by item_field.
      rewrite decide_True by (eapply lookup_lt_Some; exact Hi).
      rewrite Hi. field_decide; reflexivity.
    + intros Hpos. rewrite SetExpressCheckout_values_lookup by item_field.
      rewrite decide_False by lia.
      rewrite bool_decide_eq_true_2 by reflexivity. rewrite Hpos.
      field_decide; reflexivity.
  - intros paymentAmount currencyCode returnURL cancelURL goods values. subst values.
    split; [apply SetExpressCheckoutDigitalGoods_values_amount |].
    intros i good Hi.
    rewrite SetExpressCheckoutDigitalGoods_values_lookup by item_field.
    rewrite decide_True by (eapply lookup_lt_Some; exact Hi).
    rewrite Hi. field_decide; reflexivity.
  - apply DoExpressCheckoutPayment_values_amount.
Qed.

(** C9 as stated fails for an amount that is not finite: NaN is written
    "NaN" (and the infinities "+Inf" and "-Inf"), without decimals. *)
Lemma amount_field_not_a_number :
  DoExpressCheckoutPayment_values "EC-123" "PAYER-1" "Sale" "USD" nan
    !! "PAYMENTREQUEST_0_AMT" = Some ["NaN"]
  ∧ two_decimals "NaN" = false
  ∧ Sprintf_2f infinity = "+Inf"
  ∧ Sprintf_2f neg_infinity = "-Inf".
Proof.
  vm_compute. repeat split.
Qed.

(** Amounts of several precisions. *)
Example Sprintf_2f_samples :
  Sprintf_2f 10 = "10.00"
  ∧ Sprintf_2f 2.5 = "2.50"
  ∧ Sprintf_2f 0.125 = "0.12"
  ∧ Sprintf_2f 0.375 = "0.38"
  ∧ Sprintf_2f (-1) = "-1.00"
  ∧ Sprintf_2f (-0) = "-0.00"
  ∧ Sprintf_2f 1234567.875 = "1234567.88".
Proof. vm_compute. repeat split. Qed.

(** * Further properties of the client *)

(** ** What [PerformRequest] posts *)

Lemma Get_first (values : url.Values) (key x : string) (xs : list string) :
  values !! key = Some (x :: xs) -> Get values key = x.
Proof.
  intros H. unfold Get. rewrite H. reflexivity.
Qed.

(** X1. Against a transport that records its requests, one call of
    [PerformRequest] with a non-nil form posts exactly one request (there
    is no retry), to the sandbox NVP URL when the client uses the sandbox
    and to the production URL otherwise. The form posted is the caller's
    with the user name, password, signature and version "94" appended
    under [USER], [PWD], [SIGNATURE] and [VERSION]; every other key is as
    the caller set it, and a key the caller had already given a value
    keeps that value first. With the nil form the call panics and posts
    nothing. *)
Theorem PerformRequest_posts_once (ToLower : string -> string)
    (ParseQuery : string -> url.Values * option error)
    (respond : string -> url.Values -> string + error)
    (user pwd sig : string) (sandbox : bool) (w : Log) :
  PerformRequest_on ToLower ParseQuery
    (Build_PayPalClient Log user pwd sig sandbox (scripted_client respond)) None w
  = Panics
  ∧ ∀ values : url.Values,
      ∃ (posted : url.Values) (returned : option PayPalResponse.t * option error),
        PerformRequest_on ToLower ParseQuery
          (Build_PayPalClient Log user pwd sig sandbox (scripted_client respond))
          (Some values) w
        = Returns
            (returned,
             (w ++ [(if sandbox then NVP_SANDBOX_URL else NVP_PRODUCTION_URL, posted)])%list)
        ∧ posted !! "USER" = Some (default [] (values !! "USER") ++ [user])%list
        ∧ posted !! "PWD" = Some (default [] (values !! "PWD") ++ [pwd])%list
        ∧ posted !! "SIGNATURE" = Some (default [] (values !! "SIGNATURE") ++ [sig])%list
        ∧ posted !! "VERSION" = Some (default [] (values !! "VERSION") ++ ["94"])%list
        ∧ (∀ key, key ∉ ["USER"; "PWD"; "SIGNATURE"; "VERSION"] ->
             posted !! key = values !! key)
        ∧ (∀ key x xs, values !! key = Some (x :: xs) -> Get posted key = x).
Proof.
  split; [reflexivity |]. intros values.
  set (posted := Add (Add (Add (Add values "USER" user) "PWD" pwd) "SIGNATURE" sig)
                     "VERSION" NVP_VERSION).
  assert (Huser : posted !! "USER" = Some (default [] (values !! "USER") ++ [user])%list).
  { subst posted. rewrite !Add_lookup_ne by discriminate. apply Add_lookup_eq. }
  assert (Hpwd : posted !! "PWD" = Some (default [] (values !! "PWD") ++ [pwd])%list).
  { subst posted. rewrite !Add_lookup_ne by discriminate. rewrite Add_lookup_eq.
    rewrite Add_lookup_ne by discriminate. reflexivity. }
  assert (Hsig : posted !! "SIGNATURE"
                 = Some (default [] (values !! "SIGNATURE") ++ [sig])%list).
  { subst posted. rewrite !Add_lookup_ne by discriminate. rewrite Add_lookup_eq.
    rewrite !Add_lookup_ne by discriminate. reflexivity. }
  assert (Hver : posted !! "VERSION"
                 = Some (default [] (values !! "VERSION") ++ ["94"])%list).
  { subst posted. rewrite Add_lookup_eq. rewrite !Add_lookup_ne by discriminate.
    reflexivity. }
  assert (Hother : ∀ key, key ∉ ["USER"; "PWD"; "SIGNATURE"; "VERSION"] ->
                     posted !! key = values !! key).
  { intros key Hkey. rewrite !not_elem_of_cons in Hkey.
    destruct Hkey as (H1 & H2 & H3 & H4 & _).
    subst posted. rewrite !Add_lookup_ne by congruence. reflexivity. }
  assert (Hlog : ∃ returned,
            PerformRequest ToLower ParseQuery
              (Build_PayPalClient Log user pwd sig sandbox (scripted_client respond))
              values w
            = (returned,
               (w ++ [(if sandbox then NVP_SANDBOX_URL else NVP_PRODUCTION_URL, posted)])%list)).
  { unfold PerformRequest. cbn [client username password signature usesSandbox].
    fold posted. cbn [scripted_client PostForm].
    destruct (respond _ posted) as [body | err]; [| eexists; reflexivity].
    cbn [Body ReadAll Close canned_body].
    destruct (ParseQuery body) as [responseValues [err |]]; [eexists; reflexivity |].
    destruct (_ || _ || _)%bool; eexists; reflexivity. }
  destruct Hlog as [returned Hlog].
  exists posted, returned. split.
  - unfold PerformRequest_on. rewrite Hlog. reflexivity.
  - do 5 (split; [assumption |]).
    intros key x xs Hkey.
    destruct (decide (key ∈ ["USER"; "PWD"; "SIGNATURE"; "VERSION"])) as [Hin | Hout].
    + rewrite !elem_of_cons, elem_of_nil in Hin.
      destruct Hin as [-> | [-> | [-> | [-> | []]]]];
        [ eapply Get_first; rewrite Huser, Hkey
        | eapply Get_first; rewrite Hpwd, Hkey
        | eapply Get_first; rewrite Hsig, Hkey
        | eapply Get_first; rewrite Hver, Hkey ]; reflexivity.
    + eapply Get_first. rewrite (Hother key Hout). exact Hkey.
Qed.

(** A form that already names a user: the caller's value stays first and
    the credential of the client comes second. *)
Example PerformRequest_keeps_caller_value :
  ∃ returned,
    PerformRequest_on ToLower_ascii ParseQuery_ref
      (Build_PayPalClient Log "merchant" "secret" "sig" true
         (scripted_client (fun _ _ => inl "ACK=Success")))
      (Some (Add ∅ "USER" "caller")) []
    = Returns
        (returned,
         [(NVP_SANDBOX_URL,
           list_to_map [("USER", ["caller"; "merchant"]); ("PWD", ["secret"]);
                        ("SIGNATURE", ["sig"]); ("VERSION", ["94"])])]).
Proof. eexists. vm_compute. reflexivity. Qed.

(** ** What [PerformRequest] returns *)

Section ResultProperties.

Context {World : Type}.
Variable ToLower : string -> string.
Variable ParseQuery : string -> url.Values * option error.

(** X2. When the body has been read but the parser reports an error,
    [PerformRequest] returns that error together with a non-nil response
    whose fields are all empty and whose [Values] is nil; only the
    environment flag is set. The body is closed. *)
Theorem PerformRequest_parse_error (pClient : PayPalClient World) (values : url.Values)
    (w w1 w2 : World) (formResponse : http_Response World) (body : string)
    (responseValues : url.Values) (err : error) :
  PostForm (client pClient)
    (if usesSandbox pClient then NVP_SANDBOX_URL else NVP_PRODUCTION_URL)
    (Add (Add (Add (Add values "USER" (username pClient)) "PWD" (password pClient))
              "SIGNATURE" (signature pClient)) "VERSION" NVP_VERSION)
    w = (inl formResponse, w1) ->
  ReadAll (Body formResponse) w1 = (inl body, w2) ->
  ParseQuery body = (responseValues, Some err) ->
  PerformRequest ToLower ParseQuery pClient values w
  = ((Some (PayPalResponse.mk "" "" "" "" "" "" ∅ (usesSandbox pClient)), Some err),
     Close (Body formResponse) w2).
Proof.
  intros Hpost Hread Hparse. unfold PerformRequest.
  rewrite Hpost, Hread, Hparse. reflexivity.
Qed.

(** The four ways [PerformRequest] ends. *)
Lemma PerformRequest_cases (pClient : PayPalClient World) (values : url.Values) (w : World) :
  (∃ err w', transport_failure pClient values w err w'
             ∧ PerformRequest ToLower ParseQuery pClient values w = ((None, Some err), w'))
  ∨ (∃ err w', PerformRequest ToLower ParseQuery pClient values w
               = ((Some (PayPalResponse.mk "" "" "" "" "" "" ∅ (usesSandbox pClient)),
                   Some err), w'))
  ∨ (∃ responseValues w',
       PerformRequest ToLower ParseQuery pClient values w
       = ((Some (PayPalResponse.mk
                   (Get responseValues "ACK") (Get responseValues "CORRELATIONID")
                   (Get responseValues "TIMESTAMP") (Get responseValues "VERSION")
                   (Get responseValues "BUILD") (Get responseValues "TOKEN")
                   responseValues (usesSandbox pClient)),
           if (negb (Nat.eqb (String.length (Get responseValues "L_ERRORCODE0")) 0)
               || String.eqb (ToLower (Get responseValues "ACK")) "failure"
               || String.eqb (ToLower (Get responseValues "ACK")) "failurewithwarning")%bool
           then Some (PayPalErr (PayPalError.mk
                        (Get responseValues "ACK") (Get responseValues "L_ERRORCODE0")
                        (Get responseValues "L_SHORTMESSAGE0")
                        (Get responseValues "L_LONGMESSAGE0")
                        (Get responseValues "L_SEVERITYCODE0")))
           else None), w')).
Proof.
  destruct (PostForm (client pClient)
              (if usesSandbox pClient then NVP_SANDBOX_URL else NVP_PRODUCTION_URL)
              (Add (Add (Add (Add values "USER" (username pClient)) "PWD" (password pClient))
                        "SIGNATURE" (signature pClient)) "VERSION" NVP_VERSION)
              w) as [[formResponse | err] w1] eqn:Hpost.
  - destruct (ReadAll (Body formResponse) w1) as [[body | err] w2] eqn:Hread.
    + destruct (ParseQuery body) as [responseValues [err |]] eqn:Hparse.
      * right. left. exists err, (Close (Body formResponse) w2).
        eapply PerformRequest_parse_error; eassumption.
      * right. right. exists responseValues, (Close (Body formResponse) w2).
        eapply PerformRequest_parsed; eassumption.
    + left. exists err, (Close (Body formResponse) w2).
      assert (Hfail : transport_failure pClient values w err (Close (Body formResponse) w2))
        by (eapply read_failed; eassumption).
      split; [exact Hfail |].
      unfold PerformRequest. rewrite Hpost, Hread. reflexivity.
  - left. exists err, w1.
    assert (Hfail : transport_failure pClient values w err w1)
      by (apply post_failed; exact Hpost).
    split; [exact Hfail |].
    unfold PerformRequest. rewrite Hpost. reflexivity.
Qed.

(** X3. Every response that [PerformRequest] returns is a projection of
    its own [Values]: [Ack], [CorrelationId], [Timestamp], [Version],
    [Build] and [Token] are the first values of [ACK], [CORRELATIONID],
    [TIMESTAMP], [VERSION], [BUILD] and [TOKEN] in that mapping (all empty
    when the body could not be parsed), and [usedSandbox] is the client's
    flag. *)
Theorem PerformRequest_response_projection (pClient : PayPalClient World)
    (values : url.Values) (w : World) (response : PayPalResponse.t) :
  fst (fst (PerformRequest ToLower ParseQuery pClient values w)) = Some response ->
  PayPalResponse.Ack response = Get (PayPalResponse.Values response) "ACK"
  ∧ PayPalResponse.CorrelationId response
    = Get (PayPalResponse.Values response) "CORRELATIONID"
  ∧ PayPalResponse.Timestamp response = Get (PayPalResponse.Values response) "TIMESTAMP"
  ∧ PayPalResponse.Version response = Get (PayPalResponse.Values response) "VERSION"
  ∧ PayPalResponse.Build response = Get (PayPalResponse.Values response) "BUILD"
  ∧ PayPalResponse.Token response = Get (PayPalResponse.Values response) "TOKEN"
  ∧ PayPalResponse.usedSandbox response = usesSandbox pClient.
Proof.
  destruct (PerformRequest_cases pClient values w)
    as [(err & w' & _ & ->) | [(err & w' & ->) | (responseValues & w' & ->)]];
    cbn [fst snd]; intros [= <-]; cbn; repeat split.
Qed.

(** X4. When [PerformRequest] returns no error, the response is not nil
    and the remote side declared no failure: the first error code of the
    response is empty and its lower-cased acknowledgement is neither
    "failure" nor "failurewithwarning". *)
Theorem PerformRequest_no_error (pClient : PayPalClient World) (values : url.Values)
    (w : World) :
  snd (fst (PerformRequest ToLower ParseQuery pClient values w)) = None ->
  ∃ response,
    fst (fst (PerformRequest ToLower ParseQuery pClient values w)) = Some response
    ∧ Get (PayPalResponse.Values response) "L_ERRORCODE0" = ""
    ∧ ToLower (PayPalResponse.Ack response) ≠ "failure"
    ∧ ToLower (PayPalResponse.Ack response) ≠ "failurewithwarning".
Proof.
  destruct (PerformRequest_cases pClient values w)
    as [(err & w' & _ & ->) | [(err & w' & ->) | (responseValues & w' & ->)]];
    cbn [fst snd]; try discriminate.
  destruct (negb (Nat.eqb (String.length (Get responseValues "L_ERRORCODE0")) 0)
            || String.eqb (ToLower (Get responseValues "ACK")) "failure"
            || String.eqb (ToLower (Get responseValues "ACK")) "failurewithwarning")%bool
    eqn:Hb; [discriminate |].
  intros _. eexists. split; [reflexivity |]. cbn.
  apply orb_false_iff in Hb as [Hb Hw]. apply orb_false_iff in Hb as [Hc Hf].
  apply nonempty_false in Hc. apply String.eqb_neq in Hf, Hw.
  split; [exact Hc |]. split; assumption.
Qed.

(** X5. The response is nil exactly when the transport failed: on the
    POST itself or on reading the body. A parser error and a failure
    declared by the remote side both come with a response. *)
Theorem PerformRequest_nil_iff_transport_failure (pClient : PayPalClient World)
    (values : url.Values) (w : World) :
  fst (fst (PerformRequest ToLower ParseQuery pClient values w)) = None
  <-> ∃ err w', transport_failure pClient values w err w'.
Proof.
  split.
  - destruct (PerformRequest_cases pClient values w)
      as [(err & w' & Hfail & ->) | [(err & w' & ->) | (responseValues & w' & ->)]];
      cbn [fst snd]; try discriminate.
    intros _. exists err, w'. exact Hfail.
  - intros (err & w' & Hfail). unfold PerformRequest.
    destruct Hfail as [err w1 Hpost | formResponse w1 err w2 Hpost Hread].
    + rewrite Hpost. reflexivity.
    + rewrite Hpost, Hread. reflexivity.
Qed.

(** X6. The checkout URL of a response that [PerformRequest] returned
    points to the sandbox exactly when the client that made the request
    uses the sandbox, and its token is the first [TOKEN] value of the
    response, query-escaped. *)
Theorem CheckoutUrl_of_response (pClient : PayPalClient World) (values : url.Values)
    (w : World) (response : PayPalResponse.t) :
  fst (fst (PerformRequest ToLower ParseQuery pClient values w)) = Some response ->
  PayPalResponse.CheckoutUrl response
  = (if usesSandbox pClient then CHECKOUT_SANDBOX_URL else CHECKOUT_PRODUCTION_URL)
    +:+ "?" +:+ "cmd=_express-checkout&token="
    +:+ QueryEscape (Get (PayPalResponse.Values response) "TOKEN").
Proof.
  unfold PayPalResponse.CheckoutUrl. rewrite Encode_cmd_token.
  destruct (PerformRequest_cases pClient values w)
    as [(err & w' & _ & ->) | [(err & w' & ->) | (responseValues & w' & ->)]];
    cbn [fst snd]; intros [= <-]; reflexivity.
Qed.

End ResultProperties.

(** Runs of [PerformRequest] on a parsed and on an unparsable body. *)
Lemma PerformRequest_parse_error_witness :
  PerformRequest ToLower_ascii ParseQuery_ref
    (Build_PayPalClient Log "user" "secret" "sig" true (canned_client "ACK=%zz"))
    (GetExpressCheckoutDetails_values "EC-123") []
  = ((Some (PayPalResponse.mk "" "" "" "" "" "" ∅ true), Some (EscapeError "%zz")),
     [(NVP_SANDBOX_URL,
       Add (Add (Add (Add (GetExpressCheckoutDetails_values "EC-123") "USER" "user")
                     "PWD" "secret") "SIGNATURE" "sig") "VERSION" NVP_VERSION)]).
Proof.
  exact (PerformRequest_parse_error ToLower_ascii ParseQuery_ref
           (Build_PayPalClient Log "user" "secret" "sig" true (canned_client "ACK=%zz"))
           (GetExpressCheckoutDetails_values "EC-123") []
           [(NVP_SANDBOX_URL,
             Add (Add (Add (Add (GetExpressCheckoutDetails_values "EC-123") "USER" "user")
                           "PWD" "secret") "SIGNATURE" "sig") "VERSION" NVP_VERSION)]
           [(NVP_SANDBOX_URL,
             Add (Add (Add (Add (GetExpressCheckoutDetails_values "EC-123") "USER" "user")
                           "PWD" "secret") "SIGNATURE" "sig") "VERSION" NVP_VERSION)]
           {| Body := canned_body "ACK=%zz" |} "ACK=%zz"
           (fst (ParseQuery_ref "ACK=%zz")) (EscapeError "%zz")
           eq_refl eq_refl ltac:(vm_compute; reflexivity)).
Defined.

Lemma PerformRequest_response_projection_witness :
  PayPalResponse.Token
    (PayPalResponse.mk "Success" "" "" "" "" "EC-123"
       (fst (ParseQuery_ref "ACK=Success&TOKEN=EC-123")) false)
  = Get (fst (ParseQuery_ref "ACK=Success&TOKEN=EC-123")) "TOKEN".
Proof.
  refine (proj1 (proj2 (proj2 (proj2 (proj2 (proj2
    (PerformRequest_response_projection ToLower_ascii ParseQuery_ref
       (Build_PayPalClient Log "user" "secret" "sig" false
          (canned_client "ACK=Success&TOKEN=EC-123"))
       (GetExpressCheckoutDetails_values "EC-123") []
       (PayPalResponse.mk "Success" "" "" "" "" "EC-123"
          (fst (ParseQuery_ref "ACK=Success&TOKEN=EC-123")) false) _))))))).
  vm_compute. reflexivity.
Defined.

Lemma PerformRequest_no_error_witness :
  ∃ response,
    fst (fst (PerformRequest ToLower_ascii ParseQuery_ref
                (Build_PayPalClient Log "user" "secret" "sig" false
                   (canned_client "ACK=Success&TOKEN=EC-123"))
                (GetExpressCheckoutDetails_values "EC-123") []))
    = Some response
    ∧ Get (PayPalResponse.Values response) "L_ERRORCODE0" = ""
    ∧ ToLower_ascii (PayPalResponse.Ack response) ≠ "failure"
    ∧ ToLower_ascii (PayPalResponse.Ack response) ≠ "failurewithwarning".
Proof.
  apply (PerformRequest_no_error ToLower_ascii ParseQuery_ref
           (Build_PayPalClient Log "user" "secret" "sig" false
              (canned_client "ACK=Success&TOKEN=EC-123"))
           (GetExpressCheckoutDetails_values "EC-123") []).
  vm_compute. reflexivity.
Defined.

Lemma CheckoutUrl_of_response_witness :
  PayPalResponse.CheckoutUrl
    (PayPalResponse.mk "Success" "" "" "" "" "EC-123"
       (fst (ParseQuery_ref "ACK=Success&TOKEN=EC-123")) false)
  = CHECKOUT_PRODUCTION_URL +:+ "?" +:+ "cmd=_express-checkout&token="
    +:+ QueryEscape (Get (fst (ParseQuery_ref "ACK=Success&TOKEN=EC-123")) "TOKEN").
Proof.
  refine (CheckoutUrl_of_response ToLower_ascii ParseQuery_ref
            (Build_PayPalClient Log "user" "secret" "sig" false
               (canned_client "ACK=Success&TOKEN=EC-123"))
            (GetExpressCheckoutDetails_values "EC-123") []
            (PayPalResponse.mk "Success" "" "" "" "" "EC-123"
               (fst (ParseQuery_ref "ACK=Success&TOKEN=EC-123")) false) _).
  vm_compute. reflexivity.
Defined.

(** ** The message of an error *)

(** X7. The message of a [PayPalError] is never empty: it has a first
    character, whatever the fields hold. *)
Theorem Error_nonempty (e : PayPalError.t) :
  ∃ c rest, PayPalError.Error e = String c rest.
Proof.
  destruct (Error_cases e) as [(Hc & Hs & ->) | [(Hn & Ha & ->) | (Hn & Ha & ->)]].
  - eexists _, _. reflexivity.
  - destruct (PayPalError.Ack e) as [| c rest]; [congruence |]. eexists _, _. reflexivity.
  - eexists _, _. reflexivity.
Qed.

(** ** The discount item *)

Lemma Sprintf_2f_opp_positive (d : float) :
  (0 <? d)%float = true -> ∃ rest, Sprintf_2f (- d)%float = String "-" rest.
Proof.
  intros Hpos. unfold Sprintf_2f. rewrite opp_spec.
  rewrite ltb_spec in Hpos. change (Prim2SF 0) with (S754_zero false) in Hpos.
  destruct (Prim2SF d) as [s | s | | s m e]; try destruct s; cbn in Hpos;
    try discriminate Hpos; cbn [SFopp negb]; eexists; reflexivity.
Qed.

(** X8. When the discount is above zero, the amount of the discount item
    in the request of [SetExpressCheckout] begins with a minus sign,
    however small the discount (a discount that rounds to zero is sent as
    "-0.00", an infinite one as "-Inf"). *)
Theorem SetExpressCheckout_discount_negative (order : PayPalOrder.t)
    (goods : list PayPalGood.t) :
  (0 <? PayPalOrder.Discount order)%float = true ->
  ∃ rest,
    SetExpressCheckout_values order goods
      !! indexed "L_PAYMENTREQUEST_0_AMT" (length goods)
    = Some [String "-" rest].
Proof.
  intros Hpos. destruct (Sprintf_2f_opp_positive _ Hpos) as [rest Hrest].
  exists rest. rewrite SetExpressCheckout_values_lookup by item_field.
  rewrite decide_False by lia.
  rewrite bool_decide_eq_true_2 by reflexivity. rewrite Hpos. cbn [andb].
  unfold discount_field.
  rewrite decide_False by discriminate. rewrite decide_True by reflexivity.
  rewrite Hrest. reflexivity.
Qed.

Lemma SetExpressCheckout_discount_negative_witness :
  ∃ rest,
    SetExpressCheckout_values
      (PayPalOrder.mk 10 0 0.0009765625 10 "USD" "https://shop/return" "https://shop/cancel")
      [PayPalGood.mk "" "pen" 10 1]
      !! indexed "L_PAYMENTREQUEST_0_AMT" 1
    = Some [String "-" rest].
Proof.
  apply (SetExpressCheckout_discount_negative
           (PayPalOrder.mk 10 0 0.0009765625 10 "USD" "https://shop/return" "https://shop/cancel")
           [PayPalGood.mk "" "pen" 10 1]).
  vm_compute. reflexivity.
Defined.

Example SetExpressCheckout_tiny_discount :
  SetExpressCheckout_values
    (PayPalOrder.mk 10 0 0.0009765625 10 "USD" "https://shop/return" "https://shop/cancel")
    [PayPalGood.mk "" "pen" 10 1]
    !! "L_PAYMENTREQUEST_0_AMT1"
  = Some ["-0.00"].
Proof. vm_compute. reflexivity. Qed.

(** ** Counting the line items *)

Lemma prefix_append (p s : string) : String.prefix p (p +:+ s) = true.
Proof.
  induction p as [| c p IH]; simpl.
  - destruct s; reflexivity.
  - rewrite IH. destruct (ascii_dec c c); [reflexivity | congruence].
Qed.

Lemma name_prefix_indexed (f : string) (j : nat) :
  f ∈ item_fields ->
  String.prefix "L_PAYMENTREQUEST_0_NAME" (indexed f j) = true ->
  f = "L_PAYMENTREQUEST_0_NAME".
Proof.
  unfold item_fields. rewrite !elem_of_cons, elem_of_nil.
  intros [-> | [-> | [-> | [-> | [-> | []]]]]] H;
    first [reflexivity | exfalso; unfold indexed in H; simpl in H; discriminate H].
Qed.

Lemma name_prefix_fixed (key : string) :
  key ∈ fixed_fields -> String.prefix "L_PAYMENTREQUEST_0_NAME" key = false.
Proof.
  unfold fixed_fields. rewrite !elem_of_cons, elem_of_nil.
  intros H. repeat (destruct H as [-> | H]; [reflexivity |]). destruct H.
Qed.

#[local] Instance indexed_Inj (f : string) : Inj (=) (=) (indexed f).
Proof.
  intros i j. apply indexed_inj.
Qed.

Lemma size_name_keys (n : nat) :
  size (list_to_set (indexed "L_PAYMENTREQUEST_0_NAME" <$> seq 0 n) : gset string) = n.
Proof.
  rewrite size_list_to_set.
  - rewrite length_fmap, length_seq. reflexivity.
  - apply NoDup_fmap_2; [apply _ | apply NoDup_seq].
Qed.

(** X9. The request of [SetExpressCheckoutDigitalGoods] has as many keys
    beginning with [L_PAYMENTREQUEST_0_NAME] as the list has goods. *)
Theorem digital_name_fields_count (paymentAmount : float)
    (currencyCode returnURL cancelURL : string) (goods : list PayPalDigitalGood.t) :
  size (name_fields
          (SetExpressCheckoutDigitalGoods_values paymentAmount currencyCode returnURL
             cancelURL goods))
  = length goods.
Proof.
  rewrite <- (size_name_keys (length goods)). f_equal.
  apply set_eq. intros key. unfold name_fields.
  rewrite elem_of_filter, elem_of_dom, elem_of_list_to_set, list_elem_of_fmap.
  split.
  - intros [Hprefix Hsome].
    apply SetExpressCheckoutDigitalGoods_values_keys in Hsome
      as [Hfixed | (f & j & Hf & Hj & ->)].
    + rewrite (name_prefix_fixed _ Hfixed) in Hprefix. discriminate Hprefix.
    + rewrite (name_prefix_indexed f j Hf Hprefix).
      exists j. split; [reflexivity |]. apply elem_of_seq. lia.
  - intros (j & -> & Hj). apply elem_of_seq in Hj.
    split; [apply prefix_append |].
    rewrite SetExpressCheckoutDigitalGoods_values_lookup by item_field.
    rewrite decide_True by lia.
    destruct (lookup_lt_is_Some_2 goods j ltac:(lia)) as [good ->].
    unfold digital_good_field. rewrite decide_True by reflexivity. eauto.
Qed.

(** X10. The request of [SetExpressCheckout] has one key beginning with
    [L_PAYMENTREQUEST_0_NAME] per good, and one more when the discount is
    above zero. *)
Theorem name_fields_count (order : PayPalOrder.t) (goods : list PayPalGood.t) :
  size (name_fields (SetExpressCheckout_values order goods))
  = (length goods + if (0 <? PayPalOrder.Discount order)%float then 1 else 0)%nat.
Proof.
  rewrite <- (size_name_keys
                (length goods + if (0 <? PayPalOrder.Discount order)%float then 1 else 0)).
  f_equal.
  apply set_eq. intros key. unfold name_fields.
  rewrite elem_of_filter, elem_of_dom, elem_of_list_to_set, list_elem_of_fmap.
  split.
  - intros [Hprefix Hsome].
    pose proof Hsome as Hkey.
    apply SetExpressCheckout_values_keys in Hkey as [Hfixed | (f & j & Hf & Hj & ->)].
    + rewrite (name_prefix_fixed _ Hfixed) in Hprefix. discriminate Hprefix.
    + rewrite (name_prefix_indexed f j Hf Hprefix) in Hsome |- *.
      exists j. split; [reflexivity |]. apply elem_of_seq.
      rewrite SetExpressCheckout_values_lookup in Hsome by item_field.
      destruct (decide (j < length goods)%nat); [lia |].
      destruct (0 <? PayPalOrder.Discount order)%float; [lia |].
      rewrite andb_false_r in Hsome. destruct Hsome as [? Hsome]. discriminate Hsome.
  - intros (j & -> & Hj). apply elem_of_seq in Hj.
    split; [apply prefix_append |].
    rewrite SetExpressCheckout_values_lookup by item_field.
    destruct (decide (j < length goods)%nat) as [Hlt | Hge].
    + destruct (lookup_lt_is_Some_2 goods j Hlt) as [good ->].
      unfold good_field. rewrite decide_False by discriminate.
      rewrite decide_True by reflexivity. eauto.
    + destruct (0 <? PayPalOrder.Discount order)%float; [| lia].
      rewrite bool_decide_eq_true_2 by lia. cbn [andb].
      unfold discount_field. rewrite decide_True by reflexivity. eauto.
Qed.

(** ** What goes over the wire *)

Lemma PerformRequest_scripted_log (ToLower : string -> string)
    (ParseQuery : string -> url.Values * option error)
    (respond : string -> url.Values -> string + error)
    (user pwd sig : string) (sandbox : bool) (values : url.Values) (w : Log) :
  snd (PerformRequest ToLower ParseQuery
         (Build_PayPalClient Log user pwd sig sandbox (scripted_client respond))
         values w)
  = (w ++ [(if sandbox then NVP_SANDBOX_URL else NVP_PRODUCTION_URL,
            Add (Add (Add (Add values "USER" user) "PWD" pwd) "SIGNATURE" sig)
                "VERSION" NVP_VERSION)])%list.
Proof.
  unfold PerformRequest. cbn [client username password signature usesSandbox].
  cbn [scripted_client PostForm].
  destruct (respond _ _) as [body | err]; [| reflexivity].
  cbn [Body ReadAll Close canned_body].
  destruct (ParseQuery body) as [responseValues [err |]]; [reflexivity |].
  destruct (_ || _ || _)%bool; reflexivity.
Qed.

(** X11. [GetExpressCheckoutDetails] posts one request, to the endpoint
    of the client's environment, whose form is exactly the method name,
    the token and the four credentials, one value each. *)
Theorem GetExpressCheckoutDetails_request (ToLower : string -> string)
    (ParseQuery : string -> url.Values * option error)
    (respond : string -> url.Values -> string + error)
    (user pwd sig : string) (sandbox : bool) (token : string) (w : Log) :
  snd (GetExpressCheckoutDetails ToLower ParseQuery
         (Build_PayPalClient Log user pwd sig sandbox (scripted_client respond)) token w)
  = (w ++ [(if sandbox then NVP_SANDBOX_URL else NVP_PRODUCTION_URL,
            list_to_map
              [("METHOD", ["GetExpressCheckoutDetails"]); ("TOKEN", [token]);
               ("USER", [user]); ("PWD", [pwd]); ("SIGNATURE", [sig]);
               ("VERSION", ["94"])])])%list.
Proof.
  unfold GetExpressCheckoutDetails. rewrite PerformRequest_scripted_log.
  f_equal.
Qed.

(** X12. [DoExpressCheckoutPayment] posts one request whose form is
    exactly the method name, the token, the payer, the payment type as it
    was passed (no value is refused), the currency code, the amount in
    the [%.2f] format and the four credentials, one value each;
    [DoExpressCheckoutSale] posts the same with the payment type "Sale". *)
Theorem DoExpressCheckoutPayment_request (ToLower : string -> string)
    (ParseQuery : string -> url.Values * option error)
    (respond : string -> url.Values -> string + error)
    (user pwd sig : string) (sandbox : bool)
    (token payerId paymentType currencyCode : string) (finalPaymentAmount : float)
    (w : Log) :
  snd (DoExpressCheckoutPayment ToLower ParseQuery
         (Build_PayPalClient Log user pwd sig sandbox (scripted_client respond))
         token payerId paymentType currencyCode finalPaymentAmount w)
  = (w ++ [(if sandbox then NVP_SANDBOX_URL else NVP_PRODUCTION_URL,
            list_to_map
              [("METHOD", ["DoExpressCheckoutPayment"]); ("TOKEN", [token]);
               ("PAYERID", [payerId]);
               ("PAYMENTREQUEST_0_PAYMENTACTION", [paymentType]);
               ("PAYMENTREQUEST_0_CURRENCYCODE", [currencyCode]);
               ("PAYMENTREQUEST_0_AMT", [Sprintf_2f finalPaymentAmount]);
               ("USER", [user]); ("PWD", [pwd]); ("SIGNATURE", [sig]);
               ("VERSION", ["94"])])])%list
  ∧ snd (DoExpressCheckoutSale ToLower ParseQuery
           (Build_PayPalClient Log user pwd sig sandbox (scripted_client respond))
           token payerId currencyCode finalPaymentAmount w)
    = (w ++ [(if sandbox then NVP_SANDBOX_URL else NVP_PRODUCTION_URL,
              list_to_map
                [("METHOD", ["DoExpressCheckoutPayment"]); ("TOKEN", [token]);
                 ("PAYERID", [payerId]);
                 ("PAYMENTREQUEST_0_PAYMENTACTION", ["Sale"]);
                 ("PAYMENTREQUEST_0_CURRENCYCODE", [currencyCode]);
                 ("PAYMENTREQUEST_0_AMT", [Sprintf_2f finalPaymentAmount]);
                 ("USER", [user]); ("PWD", [pwd]); ("SIGNATURE", [sig]);
                 ("VERSION", ["94"])])])%list.
Proof.
  unfold DoExpressCheckoutSale, DoExpressCheckoutPayment.
  rewrite !PerformRequest_scripted_log. unfold DoExpressCheckoutPayment_values.
  generalize (Sprintf_2f finalPaymentAmount). intros amount.
  split; f_equal; f_equal; f_equal; vm_compute; reflexivity.
Qed.

(** ** The fixed parameters of a checkout request *)

(** X13. Whatever the order, the goods and the discount, the requests of
    [SetExpressCheckout] and [SetExpressCheckoutDigitalGoods] name the
    method "SetExpressCheckout", the payment action "Sale" and the
    solution type "Sole", switch shipping off ([REQCONFIRMSHIPPING] "0",
    [NOSHIPPING] "1"), and carry the currency code, the return URL and
    the cancel URL as given; each of these keys has one value. *)
Theorem SetExpressCheckout_fixed_parameters :
  (∀ (order : PayPalOrder.t) (goods : list PayPalGood.t),
     let values := SetExpressCheckout_values order goods in
     values !! "METHOD" = Some ["SetExpressCheckout"]
     ∧ values !! "PAYMENTREQUEST_0_PAYMENTACTION" = Some ["Sale"]
     ∧ values !! "PAYMENTREQUEST_0_CURRENCYCODE" = Some [PayPalOrder.CurrencyCode order]
     ∧ values !! "RETURNURL" = Some [PayPalOrder.ReturnUrl order]
     ∧ values !! "CANCELURL" = Some [PayPalOrder.CancelUrl order]
     ∧ values !! "REQCONFIRMSHIPPING" = Some ["0"]
     ∧ values !! "NOSHIPPING" = Some ["1"]
     ∧ values !! "SOLUTIONTYPE" = Some ["Sole"])
  ∧ (∀ (paymentAmount : float) (currencyCode returnURL cancelURL : string)
       (goods : list PayPalDigitalGood.t),
       let values :=
         SetExpressCheckoutDigitalGoods_values paymentAmount currencyCode returnURL
           cancelURL goods in
       values !! "METHOD" = Some ["SetExpressCheckout"]
       ∧ values !! "PAYMENTREQUEST_0_PAYMENTACTION" = Some ["Sale"]
       ∧ values !! "PAYMENTREQUEST_0_CURRENCYCODE" = Some [currencyCode]
       ∧ values !! "RETURNURL" = Some [returnURL]
       ∧ values !! "CANCELURL" = Some [cancelURL]
       ∧ values !! "REQCONFIRMSHIPPING" = Some ["0"]
       ∧ values !! "NOSHIPPING" = Some ["1"]
       ∧ values !! "SOLUTIONTYPE" = Some ["Sole"]).
Proof.
  split.
  - intros order goods values. subst values. unfold SetExpressCheckout_values.
    destruct (0 <? PayPalOrder.Discount order)%float; repeat split; lookup_fixed.
  - intros paymentAmount currencyCode returnURL cancelURL goods values. subst values.
    unfold SetExpressCheckoutDigitalGoods_values. repeat split; lookup_fixed.
Qed.

(** ** The error of a failure declared by the remote side *)

(** X14. The message of the error that [PerformRequest] returns for a
    failure declared by the remote side, in terms of the response: with
    an error code and a short message it reads
    "PayPal Error <code>: <short message>"; when one of the two is
    missing it is the acknowledgement of the response, and the
    maintenance text when that is empty too. *)
Theorem PerformRequest_error_message {World : Type} (ToLower : string -> string)
    (ParseQuery : string -> url.Values * option error)
    (pClient : PayPalClient World) (values : url.Values)
    (w w1 w2 : World) (formResponse : http_Response World) (body : string)
    (responseValues : url.Values) :
  PostForm (client pClient)
    (if usesSandbox pClient then NVP_SANDBOX_URL else NVP_PRODUCTION_URL)
    (Add (Add (Add (Add values "USER" (username pClient)) "PWD" (password pClient))
              "SIGNATURE" (signature pClient)) "VERSION" NVP_VERSION)
    w = (inl formResponse, w1) ->
  ReadAll (Body formResponse) w1 = (inl body, w2) ->
  ParseQuery body = (responseValues, None) ->
  remote_failure ToLower responseValues ->
  ∃ e,
    snd (fst (PerformRequest ToLower ParseQuery pClient values w)) = Some (PayPalErr e)
    ∧ (Get responseValues "L_ERRORCODE0" ≠ "" ->
       Get responseValues "L_SHORTMESSAGE0" ≠ "" ->
       PayPalError.Error e
       = "PayPal Error " +:+ Get responseValues "L_ERRORCODE0" +:+ ": "
         +:+ Get responseValues "L_SHORTMESSAGE0")
    ∧ (Get responseValues "L_ERRORCODE0" = "" ∨ Get responseValues "L_SHORTMESSAGE0" = "" ->
       Get responseValues "ACK" ≠ "" ->
       PayPalError.Error e = Get responseValues "ACK")
    ∧ (Get responseValues "L_ERRORCODE0" = "" ∨ Get responseValues "L_SHORTMESSAGE0" = "" ->
       Get responseValues "ACK" = "" ->
       PayPalError.Error e = PayPalError.maintenance).
Proof.
  intros Hpost Hread Hparse Hfail.
  rewrite (PerformRequest_parsed ToLower ParseQuery pClient values w w1 w2 formResponse
             body responseValues Hpost Hread Hparse).
  cbn [fst snd].
  rewrite (proj2 (remote_failure_true ToLower responseValues) Hfail).
  eexists. split; [reflexivity |].
  match goal with
  | |- context [PayPalError.Error ?e] =>
      destruct (Error_cases e) as [(Hc & Hs & ->) | [(Hn & Ha & ->) | (Hn & Ha & ->)]];
      cbn [PayPalError.ErrorCode PayPalError.ShortMessage PayPalError.Ack] in *
  end.
  - split; [intros _ _; reflexivity |].
    split; intros [Hempty | Hempty]; congruence.
  - split; [intros Hc Hs; exfalso; apply Hn; split; assumption |].
    split; [intros _ _; reflexivity | intros _ Hempty; congruence].
  - split; [intros Hc Hs; exfalso; apply Hn; split; assumption |].
    split; [intros _ Hne; congruence | intros _ _; reflexivity].
Qed.

Lemma PerformRequest_error_message_witness :
  ∃ e,
    snd (fst (PerformRequest ToLower_ascii ParseQuery_ref
                (Build_PayPalClient Log "user" "secret" "sig" true
                   (canned_client
                      "ACK=Failure&L_ERRORCODE0=10410&L_SHORTMESSAGE0=Invalid+token"))
                (GetExpressCheckoutDetails_values "EC-123") []))
    = Some (PayPalErr e)
    ∧ PayPalError.Error e = "PayPal Error 10410: Invalid token".
Proof.
  destruct (PerformRequest_error_message ToLower_ascii ParseQuery_ref
              (Build_PayPalClient Log "user" "secret" "sig" true
                 (canned_client
                    "ACK=Failure&L_ERRORCODE0=10410&L_SHORTMESSAGE0=Invalid+token"))
              (GetExpressCheckoutDetails_values "EC-123") []
              [(NVP_SANDBOX_URL,
                Add (Add (Add (Add (GetExpressCheckoutDetails_values "EC-123") "USER" "user")
                              "PWD" "secret") "SIGNATURE" "sig") "VERSION" NVP_VERSION)]
              [(NVP_SANDBOX_URL,
                Add (Add (Add (Add (GetExpressCheckoutDetails_values "EC-123") "USER" "user")
                              "PWD" "secret") "SIGNATURE" "sig") "VERSION" NVP_VERSION)]
              {| Body := canned_body
                   "ACK=Failure&L_ERRORCODE0=10410&L_SHORTMESSAGE0=Invalid+token" |}
              "ACK=Failure&L_ERRORCODE0=10410&L_SHORTMESSAGE0=Invalid+token"
              (fst (ParseQuery_ref
                      "ACK=Failure&L_ERRORCODE0=10410&L_SHORTMESSAGE0=Invalid+token"))
              eq_refl eq_refl ltac:(vm_compute; reflexivity)
              ltac:(left; vm_compute; discriminate))
    as (e & He & Hmsg & _).
  exists e. split; [exact He |].
  rewrite Hmsg by (vm_compute; discriminate). vm_compute. reflexivity.
Defined.

(** ** Decoding the checkout query *)

Lemma QueryEscape_char_unescape (c : ascii) (t : string) :
  QueryUnescape (QueryEscape (String c t))
  = match QueryUnescape (QueryEscape t) with
    | inl r => inl (String c r)
    | inr e => inr e
    end.
Proof.
  destruct c as [[] [] [] [] [] [] [] []]; reflexivity.
Qed.

Lemma QueryUnescape_QueryEscape (t : string) : QueryUnescape (QueryEscape t) = inl t.
Proof.
  induction t as [| c t IH].
  - reflexivity.
  - rewrite QueryEscape_char_unescape, IH. reflexivity.
Qed.

Lemma QueryEscape_char_separators (c : ascii) (t : string) :
  contains "&" (QueryEscape (String c t)) = contains "&" (QueryEscape t)
  ∧ contains ";" (QueryEscape (String c t)) = contains ";" (QueryEscape t)
  ∧ contains "=" (QueryEscape (String c t)) = contains "=" (QueryEscape t).
Proof.
  destruct c as [[] [] [] [] [] [] [] []]; repeat split.
Qed.

(** An escaped text holds no separator of a query. *)
Lemma QueryEscape_no_separator (t : string) :
  contains "&" (QueryEscape t) = false
  ∧ contains ";" (QueryEscape t) = false
  ∧ contains "=" (QueryEscape t) = false.
Proof.
  induction t as [| c t (IH1 & IH2 & IH3)].
  - repeat split.
  - destruct (QueryEscape_char_separators c t) as (-> & -> & ->). auto.
Qed.

Lemma contains_cons (sep c : ascii) (s : string) :
  contains sep (String c s) = (Ascii.eqb sep c || contains sep s)%bool.
Proof.
  reflexivity.
Qed.

Lemma pieces_single (s : string) :
  contains "&" s = false -> s ≠ "" -> pieces s = [s].
Proof.
  induction s as [| c s IH]; intros Hs Hne; [congruence |].
  rewrite contains_cons in Hs. apply orb_false_iff in Hs as [Hc Hs].
  cbn [pieces]. rewrite Ascii.eqb_sym, Hc.
  destruct s as [| c' s]; [reflexivity |].
  rewrite IH by (first [assumption | discriminate]). reflexivity.
Qed.

Lemma pieces_ampersand (a b : string) :
  contains "&" a = false -> pieces (a +:+ String "&" b) = a :: pieces b.
Proof.
  induction a as [| c a IH]; intros Ha.
  - reflexivity.
  - rewrite contains_cons in Ha. apply orb_false_iff in Ha as [Hc Ha].
    change (String c a +:+ String "&" b) with (String c (a +:+ String "&" b)).
    cbn [pieces]. rewrite Ascii.eqb_sym, Hc, (IH Ha). reflexivity.
Qed.

Lemma ParseQuery_checkout_query (token : string) :
  ParseQuery_ref ("cmd=_express-checkout&token=" +:+ QueryEscape token)
  = (Add (Set_ ∅ "cmd" "_express-checkout") "token" token, None).
Proof.
  destruct (QueryEscape_no_separator token) as (Hamp & Hsemi & Heq).
  unfold ParseQuery_ref.
  change ("cmd=_express-checkout&token=" +:+ QueryEscape token)
    with ("cmd=_express-checkout" +:+ String "&" ("token=" +:+ QueryEscape token)).
  rewrite pieces_ampersand by reflexivity.
  rewrite pieces_single; [| exact Hamp | discriminate].
  cbn [fold_left].
  assert (Hcmd : parseQuery_step (∅, None) "cmd=_express-checkout"
                 = (Set_ ∅ "cmd" "_express-checkout", None))
    by (vm_compute; reflexivity).
  rewrite Hcmd. unfold parseQuery_step.
  assert (Hsemi' : contains ";" ("token=" +:+ QueryEscape token) = false) by exact Hsemi.
  rewrite Hsemi'.
  change (String.eqb ("token=" +:+ QueryEscape token) "") with false.
  change (cut "=" ("token=" +:+ QueryEscape token)) with ("token", QueryEscape token, true).
  cbv iota beta.
  change (QueryUnescape "token") with (@inl string error "token").
  rewrite QueryUnescape_QueryEscape. reflexivity.
Qed.

(** X15. The query of a checkout URL decodes to what was encoded: read
    by [url.ParseQuery] (as modelled here for Go 1.17 and later), the text
    after the question mark gives back [cmd] = "_express-checkout" and
    [token] = the token of the response, byte for byte, without error,
    whatever bytes the token holds. *)
Theorem CheckoutUrl_query_decodes (r : PayPalResponse.t) :
  ∃ query,
    PayPalResponse.CheckoutUrl r
    = (if PayPalResponse.usedSandbox r
       then CHECKOUT_SANDBOX_URL else CHECKOUT_PRODUCTION_URL) +:+ "?" +:+ query
    ∧ snd (ParseQuery_ref query) = None
    ∧ fst (ParseQuery_ref query) !! "cmd" = Some ["_express-checkout"]
    ∧ fst (ParseQuery_ref query) !! "token" = Some [PayPalResponse.Token r]
    ∧ Get (fst (ParseQuery_ref query)) "token" = PayPalResponse.Token r.
Proof.
  exists ("cmd=_express-checkout&token=" +:+ QueryEscape (PayPalResponse.Token r)).
  split.
  - unfold PayPalResponse.CheckoutUrl. rewrite Encode_cmd_token. reflexivity.
  - rewrite ParseQuery_checkout_query. cbn [fst snd].
    assert (Htoken : Add (Set_ ∅ "cmd" "_express-checkout") "token" (PayPalResponse.Token r)
                       !! "token" = Some [PayPalResponse.Token r]).
    { rewrite Add_lookup_eq. unfold Set_.
      rewrite lookup_insert_ne by discriminate. rewrite lookup_empty. reflexivity. }
    split; [reflexivity |]. split.
    + rewrite Add_lookup_ne by discriminate. unfold Set_. apply lookup_insert_eq.
    + split; [exact Htoken |]. unfold Get. rewrite Htoken. reflexivity.
Qed.

Example CheckoutUrl_query_decodes_space :
  Get (fst (ParseQuery_ref "cmd=_express-checkout&token=EC+1%262")) "token" = "EC 1&2"
  ∧ PayPalResponse.CheckoutUrl (PayPalResponse.mk "" "" "" "" "" "EC 1&2" ∅ false)
    = "https://www.paypal.com/cgi-bin/webscr?cmd=_express-checkout&token=EC+1%262".
Proof. vm_compute. split; reflexivity. Qed.

(** ** A sum with an amount that is not a number *)

Lemma float_of_nan (x : float) : Prim2SF x = S754_nan -> x = nan.
Proof.
  intros H. rewrite <- (SF2Prim_Prim2SF x), H. reflexivity.
Qed.

Lemma add_nan_r (x : float) : (x + nan)%float = nan.
Proof.
  apply float_of_nan. rewrite add_spec.
  change (Prim2SF nan) with S754_nan.
  destruct (Prim2SF x) as [s | s | | s m e]; try destruct s; reflexivity.
Qed.

Lemma add_nan_l (x : float) : (nan + x)%float = nan.
Proof.
  apply float_of_nan. rewrite add_spec.
  change (Prim2SF nan) with S754_nan. reflexivity.
Qed.

Lemma mul_nan_l (x : float) : (nan * x)%float = nan.
Proof.
  apply float_of_nan. rewrite mul_spec.
  change (Prim2SF nan) with S754_nan. reflexivity.
Qed.

Lemma fold_products_nan (goods : list PayPalDigitalGood.t) :
  fold_left
    (fun sum dg =>
       (sum + PayPalDigitalGood.Amount dg * float64_of_int (PayPalDigitalGood.Quantity dg))%float)
    goods nan
  = nan.
Proof.
  induction goods as [| dg goods IH]; [reflexivity |].
  cbn [fold_left]. rewrite add_nan_l. exact IH.
Qed.

(** X16. One amount that is not a number makes the whole sum not a
    number, wherever the good stands in the list and whatever the other
    goods and the quantities are. *)
Theorem SumPayPalDigitalGoodAmounts_nan (goods : list PayPalDigitalGood.t)
    (dg : PayPalDigitalGood.t) :
  dg ∈ goods -> PayPalDigitalGood.Amount dg = nan ->
  SumPayPalDigitalGoodAmounts goods = nan.
Proof.
  intros Hin Hnan. apply list_elem_of_split in Hin as (before & after & ->).
  unfold SumPayPalDigitalGoodAmounts. rewrite fold_left_app. cbn [fold_left].
  rewrite Hnan, mul_nan_l, add_nan_r. apply fold_products_nan.
Qed.

Lemma SumPayPalDigitalGoodAmounts_nan_witness :
  SumPayPalDigitalGoodAmounts
    [PayPalDigitalGood.mk "song" 10 2; PayPalDigitalGood.mk "album" nan 1;
     PayPalDigitalGood.mk "film" 5 1]
  = nan.
Proof.
  apply (SumPayPalDigitalGoodAmounts_nan _ (PayPalDigitalGood.mk "album" nan 1)).
  - apply list_elem_of_further, list_elem_of_here.
  - reflexivity.
Defined.
